(** * GitHubImageHost: the GitHub image host of VNote

    A shallow embedding of [src/imagehost/githubimagehost.cpp] and the
    properties its specification states about it.

    The class stores images as files of a GitHub repository through the
    Contents API.  Its persistent state is four strings; every operation
    is a straight-line sequence of at most two blocking HTTP requests.
    The embedding keeps that shape: the object and the network live in an
    explicit world that the methods thread through a small monad, and
    every request that leaves the process is appended to a trace. *)

From Stdlib Require Import Strings.Byte Strings.Ascii.
From stdpp Require Import gmap strings list fin_maps sorting pretty.

Set Warnings "-register-all".


(** ** Qt value types *)

(** [QString] is represented by the sequence of its UTF-8 code units and
    [QByteArray] by its bytes, so that [QString::fromUtf8] and
    [QString::toUtf8] only change the view. *)
Definition QString : Type := string.
Definition QByteArray : Type := list byte.

Definition fromUtf8 (a : QByteArray) : QString := String.string_of_list_byte a.
Definition toUtf8 (s : QString) : QByteArray := String.list_byte_of_string s.

(** [QObject::tr] returns its source text when no translation is
    installed. *)
Definition tr (s : QString) : QString := s.

Module QStr.

(** [QString::isEmpty]. *)
Definition isEmpty (s : QString) : bool :=
  match s with EmptyString => true | String _ _ => false end.

(** [QString::size]. *)
Definition size (s : QString) : nat := String.length s.

(** [QString::startsWith]. *)
Fixpoint startsWith (s p : QString) {struct p} : bool :=
  match p with
  | EmptyString => true
  | String c p' =>
      match s with
      | EmptyString => false
      | String d s' => if Ascii.eqb c d then startsWith s' p' else false
      end
  end.

(** [QString::mid] with the length left out: the part of the string from
    a position to its end, the null string when the position lies
    behind the end. *)
Fixpoint mid (s : QString) (position : nat) {struct position} : QString :=
  match position with
  | O => s
  | S n => match s with EmptyString => EmptyString | String _ s' => mid s' n end
  end.

(** [QString::contains] for a character. *)
Fixpoint contains (s : QString) (c : ascii) : bool :=
  match s with
  | EmptyString => false
  | String d s' => Ascii.eqb d c || contains s' c
  end.

(** *** [QString::arg]

    A format string is cut into plain characters and place markers
    [%1] .. [%99].  The arguments go to the markers in the order of the
    marker numbers: the marker with the lowest number takes the first
    argument, and so on; a marker that no argument reaches stays as it
    is written.  The substituted text is not scanned again.  (The
    locale form [%L1] does not occur in this class and is treated as
    plain text.) *)
Inductive Part :=
| PText (c : ascii)
| PMark (number : nat) (source : QString).

Definition digitValue (c : ascii) : option nat :=
  let n := nat_of_ascii c in
  if (48 <=? n)%nat && (n <=? 57)%nat then Some (n - 48)%nat else None.

Definition percent : ascii := Ascii.ascii_of_nat 37.

Fixpoint parseFormat (s : QString) : list Part :=
  match s with
  | EmptyString => []
  | String c rest =>
      if Ascii.eqb c percent then
        match rest with
        | EmptyString => [PText c]
        | String d1 rest1 =>
            match digitValue d1 with
            | None => PText c :: parseFormat rest
            | Some n1 =>
                match rest1 with
                | EmptyString => [PMark n1 (String c (String d1 EmptyString))]
                | String d2 rest2 =>
                    match digitValue d2 with
                    | None =>
                        PMark n1 (String c (String d1 EmptyString))
                          :: parseFormat rest1
                    | Some n2 =>
                        PMark (10 * n1 + n2)
                              (String c (String d1 (String d2 EmptyString)))
                          :: parseFormat rest2
                    end
                end
            end
        end
      else PText c :: parseFormat rest
  end.

Definition markNumbers (ps : list Part) : list nat :=
  remove_dups
    (omap (fun p => match p with PMark n _ => Some n | PText _ => None end) ps).

(** Position of a marker number among the distinct marker numbers of
    the format, in increasing order. *)
Definition rank (numbers : list nat) (n : nat) : nat :=
  length (filter (fun m => m < n)%nat numbers).

Definition render (numbers : list nat) (args : list QString) (p : Part)
                  (tail : QString) : QString :=
  match p with
  | PText c => String c tail
  | PMark n source =>
      match args !! rank numbers n with
      | Some a => a +:+ tail
      | None => source +:+ tail
      end
  end.

Definition arg (format : QString) (args : list QString) : QString :=
  let parts := parseFormat format in
  foldr (render (markNumbers parts) args) EmptyString parts.

End QStr.

(** [QByteArray::toBase64] with the default options: the standard
    alphabet, three bytes to four characters, [=] padding kept. *)
Module Base64.

Definition alphabet : list byte :=
  String.list_byte_of_string
    "ABCDEFGHIJKLMNOPQRSTUVWXYZabcdefghijklmnopqrstuvwxyz0123456789+/".

Definition padchar : byte := x3d.

Definition sextet (n : N) : byte :=
  nth (N.to_nat (N.land n 63)) alphabet padchar.

Fixpoint toBase64 (d : QByteArray) : QByteArray :=
  match d with
  | [] => []
  | [a] =>
      let chunk := N.shiftl (Byte.to_N a) 16 in
      [sextet (N.shiftr chunk 18); sextet (N.shiftr chunk 12);
       padchar; padchar]
  | [a; b] =>
      let chunk := N.lor (N.shiftl (Byte.to_N a) 16)
                         (N.shiftl (Byte.to_N b) 8) in
      [sextet (N.shiftr chunk 18); sextet (N.shiftr chunk 12);
       sextet (N.shiftr chunk 6); padchar]
  | a :: b :: c :: rest =>
      let chunk := N.lor (N.lor (N.shiftl (Byte.to_N a) 16)
                                (N.shiftl (Byte.to_N b) 8))
                         (Byte.to_N c) in
      sextet (N.shiftr chunk 18) :: sextet (N.shiftr chunk 12)
        :: sextet (N.shiftr chunk 6) :: sextet chunk :: toBase64 rest
  end.

End Base64.

(** ** JSON values *)

(** [QJsonValue].  An object is a finite map from keys to values.  This
    class never reads a number; numbers are kept as integers. *)
Inductive QJsonValue :=
| JNull
| JBool (b : bool)
| JDouble (d : Z)
| JString (s : QString)
| JArray (items : list QJsonValue)
| JObject (members : gmap string QJsonValue)
| JUndefined.

Abbreviation QJsonObject := (gmap string QJsonValue).

Module Json.

(** [QJsonValue::toString]: the string of a string value, the null
    string for every other type. *)
Definition toString (v : QJsonValue) : QString :=
  match v with JString s => s | _ => EmptyString end.

(** [QJsonValue::toObject]: the object of an object value, the empty
    object for every other type. *)
Definition toObject (v : QJsonValue) : QJsonObject :=
  match v with JObject o => o | _ => ∅ end.

(** [QJsonObject::value] and the const [operator[]]: [Undefined] for a
    key that is absent. *)
Definition value (o : QJsonObject) (key : QString) : QJsonValue :=
  default JUndefined (o !! key).

(** The non-const [operator[]] read as a value: a key that is absent is
    created with [Null].  The objects it is applied to are locals that
    are not read again, so the insertion itself is not kept. *)
Definition at_ref (o : QJsonObject) (key : QString) : QJsonValue :=
  default JNull (o !! key).

(** [QJsonObject::isEmpty]. *)
Definition isEmpty (o : QJsonObject) : bool := bool_decide (o = ∅).

(** Two readings used to state properties, said without the Qt calls:
    the string found under a key, the empty string when the key is
    absent or holds a value of another type; and likewise the object
    found under a key, or the empty object. *)
Definition stringAt (o : QJsonObject) (key : QString) : QString :=
  match o !! key with Some (JString s) => s | _ => EmptyString end.

Definition objectAt (o : QJsonObject) (key : QString) : QJsonObject :=
  match o !! key with Some (JObject members) => members | _ => ∅ end.

End Json.

(** ** The network *)

(** [QNetworkReply::NetworkError] is an enumeration of integer codes; the
    class tells two of them apart from the rest. *)
Definition NetworkError : Type := Z.
Definition NoError : NetworkError := 0%Z.
Definition ContentNotFoundError : NetworkError := 203%Z.

(** [vte::NetworkReply]. *)
Record NetworkReply := {
  m_error : NetworkError;
  m_data : QByteArray
}.

Inductive QUrl := QUrl_of (s : QString).

Definition RawHeaderPairs : Type := list (QByteArray * QByteArray).

(** The three entry points of [vte::NetworkAccess] the class calls:
    [request], [put] and [deleteResource]. *)
Inductive Request :=
| Get (url : QUrl) (headers : RawHeaderPairs)
| Put (url : QUrl) (headers : RawHeaderPairs) (data : QByteArray)
| Delete (url : QUrl) (headers : RawHeaderPairs) (data : QByteArray).

Definition isPut (r : Request) : bool :=
  match r with Put _ _ _ => true | _ => false end.
Definition isDelete (r : Request) : bool :=
  match r with Delete _ _ _ => true | _ => false end.

(** What the class is compiled and linked against.  None of it is part
    of [githubimagehost.cpp]:
    - [debug_build]: whether [Q_ASSERT] is compiled in ([QT_NO_DEBUG] not
      defined).  A failed assertion ends the process;
    - [Server], [transport]: the remote side as seen through
      [vte::NetworkAccess], a synchronous exchange that may depend on and
      change the state of the server;
    - [errorStr]: [vte::NetworkReply::errorStr];
    - [toJsonString], [fromJsonString]: the helpers of [utils/utils.h];
    - [purifyUrl]: the helper of [utils/webutils.h]. *)
Class Platform := {
  debug_build : bool;
  Server : Type;
  transport : Request -> Server -> NetworkReply * Server;
  errorStr : NetworkReply -> QString;
  toJsonString : QJsonObject -> QByteArray;
  fromJsonString : QByteArray -> QJsonObject;
  purifyUrl : QString -> QString
}.

(** ** The object *)

Record GitHubImageHost := {
  m_personalAccessToken : QString;
  m_userName : QString;
  m_repoName : QString;
  m_imageUrlPrefix : QString
}.

(** The state after the constructor: every member is a null string. *)
Definition constructed : GitHubImageHost :=
  {| m_personalAccessToken := EmptyString; m_userName := EmptyString;
     m_repoName := EmptyString; m_imageUrlPrefix := EmptyString |}.

Definition c_apiUrl : QString := "https://api.github.com".

(** *** Methods that only read or write the members *)

Definition ready (this : GitHubImageHost) : bool :=
  negb (QStr.isEmpty (m_personalAccessToken this))
  && negb (QStr.isEmpty (m_userName this))
  && negb (QStr.isEmpty (m_repoName this)).

Definition getConfig (this : GitHubImageHost) : QJsonObject :=
  let obj : QJsonObject := ∅ in
  let obj := <["personal_access_token" := JString (m_personalAccessToken this)]> obj in
  let obj := <["user_name" := JString (m_userName this)]> obj in
  let obj := <["repository_name" := JString (m_repoName this)]> obj in
  obj.

(** [parseConfig] writes three reference parameters; here it returns
    them. *)
Definition parseConfig (p_jobj : QJsonObject) : QString * QString * QString :=
  (Json.toString (Json.value p_jobj "personal_access_token"),
   Json.toString (Json.value p_jobj "user_name"),
   Json.toString (Json.value p_jobj "repository_name")).

Definition setConfig (p_jobj : QJsonObject) (this : GitHubImageHost)
  : GitHubImageHost :=
  let '(token, userName, repoName) := parseConfig p_jobj in
  {| m_personalAccessToken := token;
     m_userName := userName;
     m_repoName := repoName;
     m_imageUrlPrefix :=
       QStr.arg "https://raw.githubusercontent.com/%1/%2/master/"
                [userName; repoName] |}.

Definition ownsUrl (this : GitHubImageHost) (p_url : QString) : bool :=
  QStr.startsWith p_url (m_imageUrlPrefix this).

Definition authorizationHeader (p_token : QString) : QByteArray * QByteArray :=
  let token := "token " +:+ p_token in
  (toUtf8 "Authorization", toUtf8 token).

Definition acceptHeader : QByteArray * QByteArray :=
  (toUtf8 "Accept", toUtf8 "application/vnd.github.v3+json").

Definition prepareCommonHeaders (p_token : QString) : RawHeaderPairs :=
  let rawHeader : RawHeaderPairs := [] in
  let rawHeader := rawHeader ++ [authorizationHeader p_token] in
  let rawHeader := rawHeader ++ [acceptHeader] in
  rawHeader.

(** Section 6 of the specification, for stating properties: the two
    headers every request carries and the address of a path in the
    Contents API. *)
Definition standardHeaders (token : QString) : RawHeaderPairs :=
  [(toUtf8 "Authorization", toUtf8 ("token " +:+ token));
   (toUtf8 "Accept", toUtf8 "application/vnd.github.v3+json")].

Definition contentsAddress (owner repo path : QString) : QString :=
  "https://api.github.com/repos/" +:+ owner +:+ "/" +:+ repo
    +:+ "/contents/" +:+ path.

Definition contentsUrl (owner repo path : QString) : QUrl :=
  QUrl_of (contentsAddress owner repo path).

(** *** Methods that talk to the network *)

Section Methods.

Context `{Platform}.

(** The object, the remote side, and every request sent so far, oldest
    first. *)
Record World := {
  self : GitHubImageHost;
  server : Server;
  trace : list Request
}.

(** A call either returns or dies in a failed assertion; the world is
    kept in both cases, so that the requests sent before the failure
    stay visible. *)
Inductive Outcome (A : Type) :=
| Returned (a : A)
| Aborted.
Global Arguments Returned {A} a.
Global Arguments Aborted {A}.

Definition M (A : Type) : Type := World -> Outcome A * World.

Global Instance M_ret : MRet M := fun A a w => (Returned a, w).

Global Instance M_bind : MBind M := fun A B f m w =>
  match m w with
  | (Returned a, w') => f a w'
  | (Aborted, w') => (Aborted, w')
  end.

Definition this_ : M GitHubImageHost := fun w => (Returned (self w), w).

(** [Q_ASSERT]: nothing in a release build. *)
Definition Q_ASSERT (cond : bool) : M unit := fun w =>
  if debug_build && negb cond then (Aborted, w) else (Returned (), w).

Definition send (r : Request) : M NetworkReply := fun w =>
  let '(reply, s) := transport r (server w) in
  (Returned reply,
   {| self := self w; server := s; trace := trace w ++ [r] |}).

Definition request (url : QUrl) (headers : RawHeaderPairs) : M NetworkReply :=
  send (Get url headers).
Definition put (url : QUrl) (headers : RawHeaderPairs) (data : QByteArray)
  : M NetworkReply :=
  send (Put url headers data).
Definition deleteResource (url : QUrl) (headers : RawHeaderPairs)
                          (data : QByteArray) : M NetworkReply :=
  send (Delete url headers data).

(** The world after an exchange: the server has moved on and the
    requests are in the trace. *)
Definition after (w : World) (s : Server) (sent : list Request) : World :=
  {| self := self w; server := s; trace := trace w ++ sent |}.

(** The requests sent between two worlds. *)
Definition sentBetween (before later : World) : list Request :=
  drop (length (trace before)) (trace later).

Definition getRepoInfo (p_token p_userName p_repoName : QString)
  : M NetworkReply :=
  let rawHeader := prepareCommonHeaders p_token in
  let urlStr := QStr.arg "%1/repos/%2/%3" [c_apiUrl; p_userName; p_repoName] in
  reply ← request (QUrl_of urlStr) rawHeader;
  mret reply.

(** The methods with a [QString &p_msg] parameter take its value at the
    call and return its value at the return next to their result.  The
    lines written to [qDebug] are left out. *)
Definition testConfig (p_jobj : QJsonObject) (p_msg : QString)
  : M (bool * QString) :=
  let p_msg := EmptyString in
  let '(token, userName, repoName) := parseConfig p_jobj in
  if QStr.isEmpty token || QStr.isEmpty userName || QStr.isEmpty repoName
  then
    let p_msg :=
      tr "PersonalAccessToken/UserName/RepositoryName should not be empty." in
    mret (false, p_msg)
  else
    reply ← getRepoInfo token userName repoName;
    let p_msg := fromUtf8 (m_data reply) in
    mret (Z.eqb (m_error reply) NoError, p_msg).

Definition createResource (p_content : QByteArray) (p_path p_msg : QString)
  : M (QString * QString) :=
  Q_ASSERT (negb (QStr.isEmpty p_path));;
  this ← this_;
  if negb (ready this) then
    mret (EmptyString, tr "Invalid GitHub image host configuration.")
  else
    let rawHeader := prepareCommonHeaders (m_personalAccessToken this) in
    let urlStr :=
      QStr.arg "%1/repos/%2/%3/contents/%4"
               [c_apiUrl; m_userName this; m_repoName this; p_path] in
    (* Check if p_path already exists. *)
    reply ← request (QUrl_of urlStr) rawHeader;
    if Z.eqb (m_error reply) NoError then
      mret (EmptyString,
            QStr.arg (tr "The resource already exists at the image host (%1).")
                     [p_path])
    else if negb (Z.eqb (m_error reply) ContentNotFoundError) then
      mret (EmptyString,
            QStr.arg (tr "Failed to query the resource at the image host (%1) (%2) (%3).")
                     [urlStr; errorStr reply; fromUtf8 (m_data reply)])
    else
      (* Create the content. *)
      let requestDataObj : QJsonObject := ∅ in
      let requestDataObj :=
        <["message" := JString (QStr.arg "VX_ADD: %1" [p_path])]> requestDataObj in
      let requestDataObj :=
        <["content" := JString (fromUtf8 (Base64.toBase64 p_content))]>
          requestDataObj in
      let requestData := toJsonString requestDataObj in
      reply ← put (QUrl_of urlStr) rawHeader requestData;
      if negb (Z.eqb (m_error reply) NoError) then
        mret (EmptyString,
              QStr.arg (tr "Failed to create resource at the image host (%1) (%2) (%3).")
                       [urlStr; errorStr reply; fromUtf8 (m_data reply)])
      else
        let replyObj := fromJsonString (m_data reply) in
        Q_ASSERT (negb (Json.isEmpty replyObj));;
        let targetUrl :=
          Json.toString
            (Json.value (Json.toObject (Json.at_ref replyObj "content"))
                        "download_url") in
        if QStr.isEmpty targetUrl then
          mret (targetUrl,
                QStr.arg (tr "Failed to create resource at the image host (%1) (%2) (%3).")
                         [urlStr; errorStr reply; fromUtf8 (m_data reply)])
        else
          mret (targetUrl, p_msg).

Definition create (p_data : QByteArray) (p_path p_msg : QString)
  : M (QString * QString) :=
  let destUrl := EmptyString in
  if QStr.isEmpty p_path then
    mret (destUrl, tr "Failed to create image with empty path.")
  else
    '(destUrl, p_msg) ← createResource p_data p_path p_msg;
    mret (destUrl, p_msg).

Definition remove (p_url p_msg : QString) : M (bool * QString) :=
  this ← this_;
  Q_ASSERT (ownsUrl this p_url);;
  if negb (ready this) then
    mret (false, tr "Invalid GitHub image host configuration.")
  else
    let resourcePath :=
      purifyUrl (QStr.mid p_url (QStr.size (m_imageUrlPrefix this))) in
    let rawHeader := prepareCommonHeaders (m_personalAccessToken this) in
    let urlStr :=
      QStr.arg "%1/repos/%2/%3/contents/%4"
               [c_apiUrl; m_userName this; m_repoName this; resourcePath] in
    (* Get the SHA of the resource. *)
    reply ← request (QUrl_of urlStr) rawHeader;
    if negb (Z.eqb (m_error reply) NoError) then
      mret (false,
            QStr.arg (tr "Failed to fetch information about the resource (%1).")
                     [resourcePath])
    else
      let replyObj := fromJsonString (m_data reply) in
      Q_ASSERT (negb (Json.isEmpty replyObj));;
      let sha := Json.toString (Json.at_ref replyObj "sha") in
      if QStr.isEmpty sha then
        mret (false,
              QStr.arg (tr "Failed to fetch SHA about the resource (%1) (%2).")
                       [resourcePath; fromUtf8 (m_data reply)])
      else
        (* Delete. *)
        let requestDataObj : QJsonObject := ∅ in
        let requestDataObj :=
          <["message" := JString (QStr.arg "VX_DEL: %1" [resourcePath])]>
            requestDataObj in
        let requestDataObj := <["sha" := JString sha]> requestDataObj in
        let requestData := toJsonString requestDataObj in
        reply ← deleteResource (QUrl_of urlStr) rawHeader requestData;
        if negb (Z.eqb (m_error reply) NoError) then
          mret (false,
                QStr.arg (tr "Failed to delete resource (%1) (%2).")
                         [resourcePath; fromUtf8 (m_data reply)])
        else
          mret (true, p_msg).

End Methods.

(** ** The requests and messages of the class, for stating properties *)

(** The GET that [createResource] and [remove] start with. *)
Definition lookRequest (this : GitHubImageHost) (path : QString) : Request :=
  Get (contentsUrl (m_userName this) (m_repoName this) path)
      (standardHeaders (m_personalAccessToken this)).

Section Requests.

Context `{Platform}.

(** The PUT of [createResource]. *)
Definition uploadRequest (this : GitHubImageHost) (content : QByteArray)
                         (path : QString) : Request :=
  Put (contentsUrl (m_userName this) (m_repoName this) path)
      (standardHeaders (m_personalAccessToken this))
      (toJsonString
         {[ "message" := JString ("VX_ADD: " +:+ path);
            "content" := JString (fromUtf8 (Base64.toBase64 content)) ]}).

(** The DELETE of [remove]. *)
Definition deleteRequest (this : GitHubImageHost) (path sha : QString)
  : Request :=
  Delete (contentsUrl (m_userName this) (m_repoName this) path)
         (standardHeaders (m_personalAccessToken this))
         (toJsonString
            {[ "message" := JString ("VX_DEL: " +:+ path);
               "sha" := JString sha ]}).

(** The path [remove] works on: what follows the first characters of the
    URL, as many as the prefix has, passed through [purifyUrl]. *)
Definition resourcePath (this : GitHubImageHost) (url : QString) : QString :=
  purifyUrl (QStr.mid url (QStr.size (m_imageUrlPrefix this))).

Definition queryFailed (this : GitHubImageHost) (path : QString)
                       (reply : NetworkReply) : QString :=
  "Failed to query the resource at the image host ("
    +:+ contentsAddress (m_userName this) (m_repoName this) path
    +:+ ") (" +:+ errorStr reply +:+ ") (" +:+ fromUtf8 (m_data reply) +:+ ").".

Definition createFailed (this : GitHubImageHost) (path : QString)
                        (reply : NetworkReply) : QString :=
  "Failed to create resource at the image host ("
    +:+ contentsAddress (m_userName this) (m_repoName this) path
    +:+ ") (" +:+ errorStr reply +:+ ") (" +:+ fromUtf8 (m_data reply) +:+ ").".

End Requests.

(** ** A test double for the platform

    Concrete stand-ins for what the class is linked against, used to run
    the methods on concrete inputs. *)
Module Mock.

Definition dquote : ascii := Ascii.ascii_of_nat 34.
Definition backslash : ascii := Ascii.ascii_of_nat 92.

Fixpoint escape (s : QString) : QString :=
  match s with
  | EmptyString => EmptyString
  | String c rest =>
      if Ascii.eqb c dquote || Ascii.eqb c backslash
      then String backslash (String c (escape rest))
      else String c (escape rest)
  end.

Definition dq : QString := String dquote EmptyString.

Definition quoted (s : QString) : QString :=
  String dquote (escape s +:+ String dquote EmptyString).

(** Modelled from the spec: [Utils::toJsonString] is not among the
    sources.  The spec shows the request bodies as compact JSON text
    (section 6); members are written in the order of their keys, as
    [QJsonDocument] keeps them. *)
Fixpoint compact (v : QJsonValue) : QString :=
  match v with
  | JNull | JUndefined => "null"
  | JBool b => if b then "true" else "false"
  | JDouble d => pretty d
  | JString s => quoted s
  | JArray items => "[" +:+ String.concat "," (List.map compact items) +:+ "]"
  | JObject members =>
      let rendered :=
        map_fold (fun k x acc => (k, compact x) :: acc) [] members in
      let sorted :=
        merge_sort (fun a b : string * QString => String.le a.1 b.1) rendered in
      "{" +:+ String.concat ","
                (List.map (fun kv : string * QString => quoted kv.1 +:+ ":" +:+ kv.2)
                          sorted)
          +:+ "}"
  end.

Definition compactJson (o : QJsonObject) : QByteArray :=
  toUtf8 (compact (JObject o)).

(** Modelled from the spec: [Utils::fromJsonString] is not among the
    sources.  The double reads back the texts of a table of known
    objects and takes every other text for one that is not a JSON
    object, which gives the empty object. *)
Definition parseKnown (known : list QJsonObject) (data : QByteArray)
  : QJsonObject :=
  default ∅
    (List.find (fun o => bool_decide (compact (JObject o) = fromUtf8 data)) known).

Definition hexValue (c : ascii) : option nat :=
  let n := nat_of_ascii c in
  if (48 <=? n)%nat && (n <=? 57)%nat then Some (n - 48)%nat
  else if (65 <=? n)%nat && (n <=? 70)%nat then Some (n - 55)%nat
  else if (97 <=? n)%nat && (n <=? 102)%nat then Some (n - 87)%nat
  else None.

(** Modelled from the spec: [WebUtils::purifyUrl] is not among the
    sources.  The spec describes it as the percent-decoding of the part
    of the URL behind the prefix. *)
Fixpoint percentDecode (s : QString) : QString :=
  match s with
  | EmptyString => EmptyString
  | String c rest =>
      if Ascii.eqb c QStr.percent then
        match rest with
        | String h (String l rest2) =>
            match hexValue h, hexValue l with
            | Some a, Some b =>
                String (Ascii.ascii_of_nat (16 * a + b)) (percentDecode rest2)
            | _, _ => String c (percentDecode rest)
            end
        | _ => String c (percentDecode rest)
        end
      else String c (percentDecode rest)
  end.

(** A scripted server: the replies it will give, in order; when the
    script is over every request is refused. *)
Definition refused : NetworkReply := {| m_error := 1%Z; m_data := [] |}.

Definition scripted (r : Request) (script : list NetworkReply)
  : NetworkReply * list NetworkReply :=
  match script with
  | reply :: rest => (reply, rest)
  | [] => (refused, [])
  end.

Definition errorText (r : NetworkReply) : QString :=
  "network error " +:+ pretty (m_error r).

Definition platform (debug : bool) (known : list QJsonObject) : Platform :=
  {| debug_build := debug;
     Server := list NetworkReply;
     transport := scripted;
     errorStr := errorText;
     toJsonString := compactJson;
     fromJsonString := parseKnown known;
     purifyUrl := percentDecode |}.

Definition ok (o : QJsonObject) : NetworkReply :=
  {| m_error := NoError; m_data := compactJson o |}.

Definition notFound : NetworkReply :=
  {| m_error := ContentNotFoundError; m_data := toUtf8 "Not Found" |}.

Definition world (P : Platform) (this : GitHubImageHost) (s : @Server P)
  : @World P :=
  {| self := this; server := s; trace := [] |}.

Definition host (token userName repoName : QString) : GitHubImageHost :=
  setConfig
    (<["personal_access_token" := JString token]>
       (<["user_name" := JString userName]>
          (<["repository_name" := JString repoName]> ∅)))
    constructed.

(** Replies of the Contents API, cut down to the members the class
    reads and one it does not. *)
Definition created (download_url : QString) : QJsonObject :=
  {[ "content" := JObject {[ "download_url" := JString download_url ]} ]}.

Definition fileInfo (name sha : QString) : QJsonObject :=
  {[ "name" := JString name; "sha" := JString sha ]}.

Definition nameOnly (name : QString) : QJsonObject :=
  {[ "name" := JString name ]}.

Definition config (token userName repoName : QString) : QJsonObject :=
  <["personal_access_token" := JString token]>
    (<["user_name" := JString userName]>
       (<["repository_name" := JString repoName]> ∅)).

End Mock.

(** * Properties *)

(** ** The Qt functions on known values *)

Example toBase64_three : fromUtf8 (Base64.toBase64 (toUtf8 "Man")) = "TWFu".
Proof. reflexivity. Qed.

Example toBase64_two : fromUtf8 (Base64.toBase64 (toUtf8 "Ma")) = "TWE=".
Proof. reflexivity. Qed.

Example toBase64_one : fromUtf8 (Base64.toBase64 (toUtf8 "M")) = "TQ==".
Proof. reflexivity. Qed.

Example toBase64_text :
  fromUtf8 (Base64.toBase64 (toUtf8 "light work.")) = "bGlnaHQgd29yay4=".
Proof. reflexivity. Qed.

Example arg_by_marker_number (a b : QString) :
  QStr.arg "x %2 y %1 %2 %5" [a; b]
  = "x " +:+ b +:+ " y " +:+ a +:+ " " +:+ b +:+ " %5".
Proof. reflexivity. Qed.

Example arg_not_rescanned : QStr.arg "(%1) (%2)" ["%2"; "b"] = "(%2) (b)".
Proof. reflexivity. Qed.

Example mid_behind_the_end : QStr.mid "abc" 5 = "".
Proof. reflexivity. Qed.

Example percentDecode_path : Mock.percentDecode "a%20b/c%2Fd.png" = "a b/c/d.png".
Proof. reflexivity. Qed.

Example compact_sorts_keys :
  Mock.compact
    (JObject (<["message" := JString "m"]> (<["content" := JString "c"]> ∅)))
  = "{" +:+ Mock.dq +:+ "content" +:+ Mock.dq +:+ ":" +:+ Mock.dq +:+ "c"
        +:+ Mock.dq +:+ "," +:+ Mock.dq +:+ "message" +:+ Mock.dq +:+ ":"
        +:+ Mock.dq +:+ "m" +:+ Mock.dq +:+ "}".
Proof. by vm_compute. Qed.

(** ** Strings *)

Section StringFacts.

Implicit Types s p r : QString.

Lemma str_app_cons c s p : String c s +:+ p = String c (s +:+ p).
Proof. reflexivity. Qed.

Lemma str_app_empty_r s : s +:+ "" = s.
Proof. induction s as [|c s IH]; [done | by rewrite str_app_cons, IH]. Qed.

Lemma str_app_assoc s p r : (s +:+ p) +:+ r = s +:+ (p +:+ r).
Proof. induction s as [|c s IH]; [done | by rewrite !str_app_cons, IH]. Qed.

Lemma isEmpty_true s : QStr.isEmpty s = true <-> s = "".
Proof. by destruct s. Qed.

Lemma isEmpty_false s : QStr.isEmpty s = false <-> s <> "".
Proof. by destruct s. Qed.

Lemma startsWith_app p r : QStr.startsWith (p +:+ r) p = true.
Proof.
  induction p as [|c p IH]; [done|].
  rewrite str_app_cons. simpl. by rewrite Ascii.eqb_refl.
Qed.

Lemma startsWith_split s p :
  QStr.startsWith s p = true -> s = p +:+ QStr.mid s (QStr.size p).
Proof.
  revert s. induction p as [|c p IH]; intros s; [done|].
  destruct s as [|d s]; [done|]. simpl.
  destruct (Ascii.eqb c d) eqn:E; [|done].
  apply Ascii.eqb_eq in E as ->. intros Hs. rewrite str_app_cons.
  f_equal. by apply IH.
Qed.

(** [startsWith] is the prefix relation. *)
Lemma startsWith_spec s p :
  QStr.startsWith s p = true <-> exists r, s = p +:+ r.
Proof.
  split.
  - intros Hs. eexists. by apply startsWith_split.
  - intros [r ->]. apply startsWith_app.
Qed.

Lemma mid_app p r : QStr.mid (p +:+ r) (QStr.size p) = r.
Proof. induction p as [|c p IH]; [done | rewrite str_app_cons; apply IH]. Qed.

End StringFacts.

(** The formats of the class, rendered. *)
Section Formats.

Implicit Types a b c d : QString.

Lemma arg_prefix a b :
  QStr.arg "https://raw.githubusercontent.com/%1/%2/master/" [a; b]
  = "https://raw.githubusercontent.com/" +:+ a +:+ "/" +:+ b +:+ "/master/".
Proof. reflexivity. Qed.

Lemma arg_repos a b c :
  QStr.arg "%1/repos/%2/%3" [a; b; c] = a +:+ "/repos/" +:+ b +:+ "/" +:+ c.
Proof.
  transitivity (a +:+ "/repos/" +:+ b +:+ "/" +:+ (c +:+ ""));
    [reflexivity | by rewrite str_app_empty_r].
Qed.

Lemma arg_contents b c d :
  QStr.arg "%1/repos/%2/%3/contents/%4" [c_apiUrl; b; c; d]
  = contentsAddress b c d.
Proof.
  transitivity (contentsAddress b c (d +:+ ""));
    [reflexivity | by rewrite str_app_empty_r].
Qed.

Lemma arg_contents_url a b c :
  QUrl_of (QStr.arg "%1/repos/%2/%3/contents/%4" [c_apiUrl; a; b; c])
  = contentsUrl a b c.
Proof. unfold contentsUrl. by rewrite arg_contents. Qed.

Lemma prepareCommonHeaders_standard a :
  prepareCommonHeaders a = standardHeaders a.
Proof. reflexivity. Qed.

Lemma arg_add a : QStr.arg "VX_ADD: %1" [a] = "VX_ADD: " +:+ a.
Proof.
  transitivity ("VX_ADD: " +:+ (a +:+ ""));
    [reflexivity | by rewrite str_app_empty_r].
Qed.

Lemma arg_del a : QStr.arg "VX_DEL: %1" [a] = "VX_DEL: " +:+ a.
Proof.
  transitivity ("VX_DEL: " +:+ (a +:+ ""));
    [reflexivity | by rewrite str_app_empty_r].
Qed.

Lemma arg_exists a :
  QStr.arg (tr "The resource already exists at the image host (%1).") [a]
  = "The resource already exists at the image host (" +:+ a +:+ ").".
Proof. reflexivity. Qed.

Lemma arg_create_failed a b c :
  QStr.arg (tr "Failed to create resource at the image host (%1) (%2) (%3).")
           [a; b; c]
  = "Failed to create resource at the image host (" +:+ a +:+ ") ("
      +:+ b +:+ ") (" +:+ c +:+ ").".
Proof. reflexivity. Qed.

Lemma arg_sha_failed a b :
  QStr.arg (tr "Failed to fetch SHA about the resource (%1) (%2).") [a; b]
  = "Failed to fetch SHA about the resource (" +:+ a +:+ ") (" +:+ b +:+ ").".
Proof. reflexivity. Qed.

End Formats.

(** ** Configuration *)

(** The Qt calls that read a member give the readings [stringAt] and
    [objectAt]. *)
Lemma toString_value (o : QJsonObject) (key : QString) :
  Json.toString (Json.value o key) = Json.stringAt o key.
Proof. unfold Json.value, Json.stringAt. by destruct (o !! key) as [[]|]. Qed.

Lemma toString_at_ref (o : QJsonObject) (key : QString) :
  Json.toString (Json.at_ref o key) = Json.stringAt o key.
Proof. unfold Json.at_ref, Json.stringAt. by destruct (o !! key) as [[]|]. Qed.

Lemma toObject_at_ref (o : QJsonObject) (key : QString) :
  Json.toObject (Json.at_ref o key) = Json.objectAt o key.
Proof. unfold Json.at_ref, Json.objectAt. by destruct (o !! key) as [[]|]. Qed.

Lemma isEmpty_object (o : QJsonObject) : Json.isEmpty o = false <-> o <> ∅.
Proof. unfold Json.isEmpty. by rewrite bool_decide_eq_false. Qed.

Lemma stringAt_nonempty (o : QJsonObject) (key : QString) :
  Json.stringAt o key <> "" -> o <> ∅.
Proof. intros Hs ->. unfold Json.stringAt in Hs. by rewrite lookup_empty in Hs. Qed.

Lemma getConfig_lookup (this : GitHubImageHost) :
  getConfig this !! "personal_access_token"
    = Some (JString (m_personalAccessToken this))
  /\ getConfig this !! "user_name" = Some (JString (m_userName this))
  /\ getConfig this !! "repository_name" = Some (JString (m_repoName this)).
Proof. unfold getConfig. by rewrite !lookup_insert. Qed.

(** C9.  [ready()] answers true exactly when the access token, the user
    name and the repository name are all non-empty; a call of it on the
    object returns that answer, sends nothing and leaves the object as it
    was. *)
Theorem ready_iff_all_fields_nonempty `{Platform} (this : GitHubImageHost) :
  (ready this = true
   <-> m_personalAccessToken this <> "" /\ m_userName this <> ""
       /\ m_repoName this <> "")
  /\ (forall w : World,
        (h ← this_; mret (ready h)) w = (Returned (ready (self w)), w)).
Proof.
  split; [|done].
  unfold ready. rewrite !andb_true_iff, !negb_true_iff, !isEmpty_false. tauto.
Qed.

(** C10.  After [setConfig(j)] the three members are the strings found
    under [personal_access_token], [user_name] and [repository_name] in
    [j], the empty string standing for a key that is absent or not a
    string; [getConfig()] then gives the object with exactly these three
    keys and values, and feeding it back to [setConfig] changes nothing. *)
Theorem setConfig_getConfig_roundtrip (j : QJsonObject) (this0 : GitHubImageHost) :
  let this := setConfig j this0 in
  m_personalAccessToken this = Json.stringAt j "personal_access_token"
  /\ m_userName this = Json.stringAt j "user_name"
  /\ m_repoName this = Json.stringAt j "repository_name"
  /\ getConfig this
      = {[ "personal_access_token" := JString (m_personalAccessToken this);
           "user_name" := JString (m_userName this);
           "repository_name" := JString (m_repoName this) ]}
  /\ dom (getConfig this)
      = ({[ "personal_access_token"; "user_name"; "repository_name" ]} : gset string)
  /\ setConfig (getConfig this) this = this.
Proof.
  intros this. subst this.
  unfold setConfig, parseConfig. cbn [m_personalAccessToken m_userName m_repoName].
  rewrite !toString_value.
  (* The keys are literals: lookups, insertions and the domain compute. *)
  split_and!; reflexivity.
Qed.

(** ** Ownership of URLs *)

Lemma app_slash_inj (a a' x y : QString) :
  QStr.contains a "/" = false -> QStr.contains a' "/" = false ->
  a +:+ String "/" x = a' +:+ String "/" y -> a = a' /\ x = y.
Proof.
  revert a'. induction a as [|c a IH]; intros [|c' a'] Ha Ha' E.
  - by simplify_eq.
  - rewrite str_app_cons in E. injection E as <- _. by vm_compute in Ha'.
  - rewrite str_app_cons in E. injection E as -> _. by vm_compute in Ha.
  - rewrite !str_app_cons in E. injection E as -> E.
    simpl in Ha, Ha'. apply orb_false_iff in Ha as [_ Ha].
    apply orb_false_iff in Ha' as [_ Ha'].
    by destruct (IH a' Ha Ha' E) as [-> ->].
Qed.

Lemma setConfig_prefix (j : QJsonObject) (this0 : GitHubImageHost) :
  m_imageUrlPrefix (setConfig j this0)
  = "https://raw.githubusercontent.com/" +:+ m_userName (setConfig j this0)
      +:+ "/" +:+ m_repoName (setConfig j this0) +:+ "/master/".
Proof. reflexivity. Qed.

Lemma ownsUrl_setConfig (j : QJsonObject) (this0 : GitHubImageHost) (u : QString) :
  let this := setConfig j this0 in
  ownsUrl this u = true
  <-> exists rest,
        u = "https://raw.githubusercontent.com/" +:+ m_userName this +:+ "/"
              +:+ m_repoName this +:+ "/master/" +:+ rest.
Proof.
  intros this. subst this. unfold ownsUrl.
  rewrite startsWith_spec, setConfig_prefix.
  split; intros [rest ->]; exists rest; by rewrite !str_app_assoc.
Qed.

(** C6, as the spec has it, fails where a name holds a slash: the owner
    [a/b] with the repository [c] and the owner [a] with the repository
    [b/c] give the same prefix, so a URL owned under the first pair is
    still owned after the object is configured with the second. *)
Lemma ownsUrl_kept_by_other_names :
  let this := setConfig (Mock.config "t" "a/b" "c") constructed in
  let this' := setConfig (Mock.config "t" "a" "b/c") this in
  let u := "https://raw.githubusercontent.com/a/b/c/master/x.png" in
  ownsUrl this u = true
  /\ m_userName this' <> m_userName this
  /\ m_repoName this' <> m_repoName this
  /\ ownsUrl this' u = true.
Proof. by vm_compute. Qed.

(** C6, amended.  Once the object is configured, [ownsUrl(u)] is true
    exactly when [u] starts with
    [https://raw.githubusercontent.com/{owner}/{repo}/master/]; and a URL
    that is owned stops being owned when the object is configured again
    with another owner or repository, as long as none of the old and new
    names holds a slash. *)
Theorem ownsUrl_iff_prefix (j j' : QJsonObject) (this0 : GitHubImageHost)
                           (u : QString) :
  let this := setConfig j this0 in
  let this' := setConfig j' this in
  (ownsUrl this u = true
   <-> exists rest,
         u = "https://raw.githubusercontent.com/" +:+ m_userName this +:+ "/"
               +:+ m_repoName this +:+ "/master/" +:+ rest)
  /\ (ownsUrl this u = true ->
      m_userName this' <> m_userName this \/ m_repoName this' <> m_repoName this ->
      QStr.contains (m_userName this) "/" = false ->
      QStr.contains (m_repoName this) "/" = false ->
      QStr.contains (m_userName this') "/" = false ->
      QStr.contains (m_repoName this') "/" = false ->
      ownsUrl this' u = false).
Proof.
  intros this this'. split; [apply ownsUrl_setConfig|].
  intros Hown Hdiff Hu Hr Hu' Hr'.
  apply not_true_is_false. intros Hown'.
  apply ownsUrl_setConfig in Hown as [rest E].
  apply (ownsUrl_setConfig j' this) in Hown' as [rest' E'].
  fold this' in E'. rewrite E in E'.
  apply (inj (String.app _)) in E'.
  apply app_slash_inj in E' as [Eu E']; [|done..].
  apply (app_slash_inj _ _ ("master/" +:+ rest) ("master/" +:+ rest'))
    in E' as [Er _]; [|done..].
  destruct Hdiff as [Hdiff|Hdiff]; by apply Hdiff.
Qed.

(** The amended statement at concrete names: [alice/notes], then
    [alice/journal]. *)
Lemma ownsUrl_iff_prefix_witness :
  let this := setConfig (Mock.config "t" "alice" "notes") constructed in
  let this' := setConfig (Mock.config "t" "alice" "journal") this in
  let u := "https://raw.githubusercontent.com/alice/notes/master/a/b.png" in
  ownsUrl this u = true /\ ownsUrl this' u = false.
Proof.
  split; [reflexivity|].
  apply (proj2 (ownsUrl_iff_prefix (Mock.config "t" "alice" "notes")
                                   (Mock.config "t" "alice" "journal")
                                   constructed
                                   "https://raw.githubusercontent.com/alice/notes/master/a/b.png"));
    first [reflexivity | by right].
Defined.

(** ** Running the methods *)

Section Running.

Context `{Platform}.

Lemma bind_run {A B} (m : M A) (f : A -> M B) (w w' : World) (a : A) :
  m w = (Returned a, w') -> (m ≫= f) w = f a w'.
Proof. intros E. unfold mbind, M_bind. by rewrite E. Qed.

Lemma bind_abort {A B} (m : M A) (f : A -> M B) (w w' : World) :
  m w = (Aborted, w') -> (m ≫= f) w = (Aborted, w').
Proof. intros E. unfold mbind, M_bind. by rewrite E. Qed.

Lemma eqb_decide (e e' : NetworkError) : Z.eqb e e' = bool_decide (e = e').
Proof.
  destruct (Z.eqb_spec e e') as [E|E];
    [by rewrite bool_decide_eq_true_2 | by rewrite bool_decide_eq_false_2].
Qed.

Lemma this_run (w : World) : this_ w = (Returned (self w), w).
Proof. reflexivity. Qed.

Lemma assert_holds (cond : bool) (w : World) :
  cond = true -> Q_ASSERT cond w = (Returned (), w).
Proof. intros ->. unfold Q_ASSERT. by rewrite andb_false_r. Qed.

Lemma assert_release (cond : bool) (w : World) :
  debug_build = false -> Q_ASSERT cond w = (Returned (), w).
Proof. intros E. unfold Q_ASSERT. by rewrite E. Qed.

Lemma assert_fails (w : World) :
  debug_build = true -> Q_ASSERT false w = (Aborted, w).
Proof. intros E. unfold Q_ASSERT. by rewrite E. Qed.

Lemma send_run (r : Request) (w : World) (reply : NetworkReply) (s : Server) :
  transport r (server w) = (reply, s) ->
  send r w = (Returned reply, after w s [r]).
Proof. intros E. unfold send. by rewrite E. Qed.

Lemma send_result (r : Request) (w : World) :
  send r w
  = (Returned (transport r (server w)).1, after w (transport r (server w)).2 [r]).
Proof. apply send_run, surjective_pairing. Qed.

Lemma after_nil (w : World) : after w (server w) [] = w.
Proof. destruct w. unfold after. simpl. by rewrite app_nil_r. Qed.

Lemma after_after (w : World) (s s' : Server) (l l' : list Request) :
  after (after w s l) s' l' = after w s' (l ++ l').
Proof. unfold after. simpl. by rewrite <- (assoc_L (++)). Qed.

Lemma sentBetween_after (w : World) (s : Server) (l : list Request) :
  sentBetween w (after w s l) = l.
Proof. unfold sentBetween, after. simpl. by rewrite drop_app_length. Qed.

Lemma sentBetween_same (w : World) : sentBetween w w = [].
Proof. unfold sentBetween. by rewrite drop_all. Qed.

(** [create] only adds the test for the empty path. *)
Lemma create_nonempty (data : QByteArray) (path msg : QString) (w : World) :
  path <> "" -> create data path msg w = createResource data path msg w.
Proof.
  intros Hp. unfold create. apply isEmpty_false in Hp as ->.
  unfold mbind, M_bind.
  by destruct (createResource data path msg w) as [[[url m]|] w'].
Qed.

End Running.

(** ** Refusals before any request *)

(** C7.  [create] with an empty path returns the empty URL and the
    message of the empty path, whatever the content and whatever the
    configuration, ready or not; the world it leaves is the one it found,
    so nothing was sent. *)
Theorem create_empty_path `{Platform} (data : QByteArray) (msg : QString)
                          (w : World) :
  create data "" msg w
  = (Returned ("", "Failed to create image with empty path."), w)
  /\ sentBetween w (create data "" msg w).2 = [].
Proof. split; [reflexivity | apply sentBetween_same]. Qed.

(** C8.  While [ready()] is false, [createResource] (and [create]) with a
    non-empty path and [remove] with a URL the object owns return a
    failure with the message of the invalid configuration; the world
    stays as it was: no request is sent and the members keep their
    values. *)
Theorem not_ready_refuses `{Platform} (w : World) (content : QByteArray)
                          (path url msg : QString) :
  ready (self w) = false ->
  (path <> "" ->
   createResource content path msg w
   = (Returned ("", "Invalid GitHub image host configuration."), w)
   /\ create content path msg w
     = (Returned ("", "Invalid GitHub image host configuration."), w))
  /\ (ownsUrl (self w) url = true ->
      remove url msg w
      = (Returned (false, "Invalid GitHub image host configuration."), w)).
Proof.
  intros Hready. split.
  - intros Hp. rewrite create_nonempty by done.
    split; unfold createResource;
    rewrite (bind_run _ _ w w ()) by
      (apply assert_holds; by rewrite negb_true_iff, isEmpty_false);
    rewrite (bind_run _ _ w w (self w)) by apply this_run;
    by rewrite Hready.
  - intros Hown. unfold remove.
    rewrite (bind_run _ _ w w (self w)) by apply this_run.
    rewrite (bind_run _ _ w w ()) by by apply assert_holds.
    by rewrite Hready.
Qed.

Lemma not_ready_refuses_witness :
  let P := Mock.platform true [] in
  let w := Mock.world P constructed [] in
  createResource [] "img.png" "" w
  = (Returned ("", "Invalid GitHub image host configuration."), w)
  /\ remove "https://example.org/img.png" "" w
     = (Returned (false, "Invalid GitHub image host configuration."), w).
Proof.
  pose proof (@not_ready_refuses (Mock.platform true [])
                (Mock.world (Mock.platform true []) constructed [])
                [] "img.png" "https://example.org/img.png" "" eq_refl)
    as [Hcreate Hremove].
  split; [apply Hcreate; discriminate | apply Hremove; reflexivity].
Defined.

(** ** [testConfig] *)

(** C5.  [testConfig] reads the three fields of the candidate object.  If
    one of them is empty it fails with the message that names them and
    leaves the world as it was.  Otherwise it sends one GET request to
    [https://api.github.com/repos/{owner}/{repo}] and nothing else,
    answers whether the reply carries no error, and hands back the body
    of the reply as the message in both cases. *)
Theorem testConfig_checks_then_asks `{Platform} (j : QJsonObject)
                                    (msg : QString) (w : World) :
  let token := Json.stringAt j "personal_access_token" in
  let userName := Json.stringAt j "user_name" in
  let repoName := Json.stringAt j "repository_name" in
  let ask :=
    Get (QUrl_of ("https://api.github.com/repos/" +:+ userName +:+ "/" +:+ repoName))
        [(toUtf8 "Authorization", toUtf8 ("token " +:+ token));
         (toUtf8 "Accept", toUtf8 "application/vnd.github.v3+json")] in
  let reply := (transport ask (server w)).1 in
  (token = "" \/ userName = "" \/ repoName = "" ->
   testConfig j msg w
   = (Returned
        (false, "PersonalAccessToken/UserName/RepositoryName should not be empty."),
      w))
  /\ (token <> "" /\ userName <> "" /\ repoName <> "" ->
      testConfig j msg w
      = (Returned (bool_decide (m_error reply = NoError), fromUtf8 (m_data reply)),
         after w (transport ask (server w)).2 [ask])).
Proof.
  intros token userName repoName ask reply.
  unfold testConfig, parseConfig. rewrite !toString_value.
  cbv beta iota zeta. fold token userName repoName. split.
  - intros Hempty.
    assert (QStr.isEmpty token || QStr.isEmpty userName || QStr.isEmpty repoName
            = true) as ->; [|done].
    rewrite !orb_true_iff, !isEmpty_true. tauto.
  - intros (Ht & Hu & Hr).
    apply isEmpty_false in Ht as ->, Hu as ->, Hr as ->. cbn [orb].
    unfold getRepoInfo, request. rewrite arg_repos.
    rewrite (bind_run _ _ w _ _ (bind_run _ _ w _ _ (send_result _ w))).
    unfold mret, M_ret. by rewrite eqb_decide.
Qed.

Lemma testConfig_checks_then_asks_witness :
  let P := Mock.platform true [] in
  let w := Mock.world P constructed [Mock.notFound] in
  testConfig (Mock.config "t" "" "notes") "old" w
  = (Returned
       (false, "PersonalAccessToken/UserName/RepositoryName should not be empty."),
     w)
  /\ testConfig (Mock.config "t" "alice" "notes") "old" w
     = (Returned (false, "Not Found"),
        after w []
          [Get (QUrl_of "https://api.github.com/repos/alice/notes")
               (standardHeaders "t")]).
Proof.
  split.
  - apply (proj1 (@testConfig_checks_then_asks (Mock.platform true [])
                    (Mock.config "t" "" "notes") "old"
                    (Mock.world (Mock.platform true []) constructed
                                [Mock.notFound]))).
    right; left; reflexivity.
  - apply (proj2 (@testConfig_checks_then_asks (Mock.platform true [])
                    (Mock.config "t" "alice" "notes") "old"
                    (Mock.world (Mock.platform true []) constructed
                                [Mock.notFound]))).
    repeat split; discriminate.
Defined.

(** ** [createResource] *)

(** C2.  With a non-empty path and a ready configuration, when the GET
    that looks for the path comes back without error, [createResource]
    (and [create]) fail with the message that the resource already
    exists; the GET is the only request of the call, so no PUT is sent
    and what is there is not overwritten. *)
Theorem createResource_never_overwrites `{Platform} (w : World)
    (content : QByteArray) (path msg : QString) :
  let this := self w in
  let look :=
    Get (contentsUrl (m_userName this) (m_repoName this) path)
        (standardHeaders (m_personalAccessToken this)) in
  let found := transport look (server w) in
  path <> "" ->
  ready this = true ->
  m_error found.1 = NoError ->
  createResource content path msg w
  = (Returned
       ("", "The resource already exists at the image host (" +:+ path +:+ ")."),
     after w found.2 [look])
  /\ create content path msg w = createResource content path msg w
  /\ Forall (fun r => isPut r = false)
            (sentBetween w (createResource content path msg w).2).
Proof.
  intros this look found Hp Hready Herr.
  assert (createResource content path msg w
          = (Returned
               ("", "The resource already exists at the image host ("
                      +:+ path +:+ ")."),
             after w found.2 [look])) as E.
  { unfold createResource.
    rewrite (bind_run _ _ w w ()) by
      (apply assert_holds; by rewrite negb_true_iff, isEmpty_false).
    rewrite (bind_run _ _ w w (self w)) by apply this_run.
    fold this. rewrite Hready. cbn [negb].
    rewrite arg_contents_url, prepareCommonHeaders_standard. unfold request.
    rewrite (bind_run _ _ w _ _ (send_result _ w)).
    fold look found. rewrite Herr. cbn [Z.eqb NoError].
    by rewrite arg_exists. }
  split_and!; [done | by apply create_nonempty |].
  rewrite E. cbn [snd]. rewrite sentBetween_after. by repeat constructor.
Qed.

Lemma createResource_never_overwrites_witness :
  let P := Mock.platform true [Mock.nameOnly "img.png"] in
  let w := Mock.world P (Mock.host "t" "u" "r")
                      [Mock.ok (Mock.nameOnly "img.png")] in
  createResource [] "img.png" "" w
  = (Returned ("", "The resource already exists at the image host (img.png)."),
     after w []
       [Get (QUrl_of "https://api.github.com/repos/u/r/contents/img.png")
            (standardHeaders "t")]).
Proof.
  apply (proj1 (@createResource_never_overwrites
                  (Mock.platform true [Mock.nameOnly "img.png"])
                  (Mock.world (Mock.platform true [Mock.nameOnly "img.png"])
                              (Mock.host "t" "u" "r")
                              [Mock.ok (Mock.nameOnly "img.png")])
                  [] "img.png" "" ltac:(discriminate) eq_refl eq_refl)).
Defined.

(** C1, as the spec has it, fails in a build with assertions: when the
    body of the reply to the PUT is not a JSON object, or is the empty
    one, the URL to download from is missing, but the call dies in
    [Q_ASSERT(!replyObj.isEmpty())] and returns nothing. *)
Lemma createResource_dies_on_empty_reply :
  let P := Mock.platform true [] in
  let w := Mock.world P (Mock.host "t" "u" "r")
                      [Mock.notFound; Mock.ok ∅] in
  let look := Get (contentsUrl "u" "r" "img.png") (standardHeaders "t") in
  let upload :=
    Put (contentsUrl "u" "r" "img.png") (standardHeaders "t")
        (toJsonString {[ "message" := JString "VX_ADD: img.png";
                         "content" := JString "aGk=" ]}) in
  ready (self w) = true
  /\ m_error (transport look (server w)).1 = ContentNotFoundError
  /\ m_error (transport upload (transport look (server w)).2).1 = NoError
  /\ Json.stringAt
       (Json.objectAt
          (fromJsonString
             (m_data (transport upload (transport look (server w)).2).1))
          "content")
       "download_url" = ""
  /\ createResource (toUtf8 "hi") "img.png" "" w
     = (Aborted, after w [] [look; upload]).
Proof. split_and!; reflexivity. Qed.

(** C1, amended.  With a non-empty path and a ready configuration, when
    the GET that looks for the path reports that it is not found,
    [createResource] sends a PUT to the same address whose body is the
    JSON object with the members [message], ["VX_ADD: {path}"], and
    [content], the content in Base64, and sends nothing more.  When the
    reply to the PUT has no error and its member [content.download_url]
    is a non-empty string, exactly this string is returned and the
    message is left alone.  When the member is empty or missing, and the
    build has no assertions or the reply is a non-empty object, the empty
    string is returned and the message says that the creation failed. *)
Theorem createResource_uploads `{Platform} (w : World) (content : QByteArray)
                               (path msg : QString) :
  let this := self w in
  let address := contentsUrl (m_userName this) (m_repoName this) path in
  let headers := standardHeaders (m_personalAccessToken this) in
  let look := Get address headers in
  let upload :=
    Put address headers
        (toJsonString
           {[ "message" := JString ("VX_ADD: " +:+ path);
              "content" := JString (fromUtf8 (Base64.toBase64 content)) ]}) in
  let missing := transport look (server w) in
  let done := transport upload missing.2 in
  let replyObj := fromJsonString (m_data done.1) in
  let download_url := Json.stringAt (Json.objectAt replyObj "content") "download_url" in
  path <> "" ->
  ready this = true ->
  m_error missing.1 = ContentNotFoundError ->
  sentBetween w (createResource content path msg w).2 = [look; upload]
  /\ (m_error done.1 = NoError ->
      (download_url <> "" ->
       createResource content path msg w
       = (Returned (download_url, msg), after w done.2 [look; upload]))
      /\ (download_url = "" ->
          debug_build = false \/ replyObj <> ∅ ->
          createResource content path msg w
          = (Returned
               ("", "Failed to create resource at the image host ("
                      +:+ contentsAddress (m_userName this) (m_repoName this) path
                      +:+ ") (" +:+ errorStr done.1 +:+ ") ("
                      +:+ fromUtf8 (m_data done.1) +:+ ")."),
             after w done.2 [look; upload]))).
Proof.
  intros this address headers look upload missing done replyObj download_url
         Hp Hready Hmissing.
  unfold createResource.
  rewrite (bind_run _ _ w w ()) by
    (apply assert_holds; by rewrite negb_true_iff, isEmpty_false).
  rewrite (bind_run _ _ w w (self w)) by apply this_run.
  fold this. rewrite Hready. cbn [negb].
  rewrite arg_contents, prepareCommonHeaders_standard.
  fold (contentsUrl (m_userName this) (m_repoName this) path).
  unfold request, put.
  rewrite (bind_run _ _ w _ _ (send_result _ w)).
  fold address headers look missing. rewrite Hmissing.
  change (Z.eqb ContentNotFoundError NoError) with false.
  change (Z.eqb ContentNotFoundError ContentNotFoundError) with true.
  cbn [negb]. rewrite arg_add.
  match goal with |- context [toJsonString ?o] =>
    change o with ({[ "message" := JString ("VX_ADD: " +:+ path);
                      "content" := JString (fromUtf8 (Base64.toBase64 content)) ]}
                   : QJsonObject)
  end.
  fold upload.
  rewrite (bind_run _ _ _ _ _ (send_result _ _)).
  cbn [server after]. fold (after w missing.2 [look]).
  rewrite after_after. cbn [app]. fold done replyObj.
  rewrite toObject_at_ref, toString_value. fold download_url.
  rewrite arg_create_failed.
  split.
  - (* Whatever the reply to the PUT, nothing is sent after it. *)
    unfold mbind, M_bind, Q_ASSERT, mret, M_ret.
    repeat match goal with |- context [if ?c then _ else _] => destruct c end;
      cbn [snd]; apply sentBetween_after.
  - intros Hdone. rewrite Hdone. change (Z.eqb NoError NoError) with true.
    cbn [negb]. split.
    + intros Hurl.
      rewrite (bind_run _ _ _ _ ()) by
        (apply assert_holds, negb_true_iff, isEmpty_object;
         unfold download_url in Hurl;
         intros E; apply Hurl; unfold Json.objectAt, Json.stringAt;
         by rewrite E, !lookup_empty).
      by apply isEmpty_false in Hurl as ->.
    + intros Hurl Hassert.
      rewrite (bind_run _ _ _ _ ()) by
        (destruct Hassert as [Hrelease|Hobj];
         [by apply assert_release
         |by apply assert_holds, negb_true_iff, isEmpty_object]).
      by rewrite Hurl.
Qed.

Lemma createResource_uploads_witness :
  let P :=
    Mock.platform true
      [Mock.created "https://raw.githubusercontent.com/u/r/master/img.png"] in
  let w :=
    Mock.world P (Mock.host "t" "u" "r")
      [Mock.notFound;
       Mock.ok (Mock.created "https://raw.githubusercontent.com/u/r/master/img.png")] in
  createResource (toUtf8 "hi") "img.png" "" w
  = (Returned ("https://raw.githubusercontent.com/u/r/master/img.png", ""),
     after w []
       [Get (contentsUrl "u" "r" "img.png") (standardHeaders "t");
        Put (contentsUrl "u" "r" "img.png") (standardHeaders "t")
            (toJsonString {[ "message" := JString "VX_ADD: img.png";
                             "content" := JString "aGk=" ]})]).
Proof.
  apply (proj1 (proj2
    (@createResource_uploads
       (Mock.platform true
          [Mock.created "https://raw.githubusercontent.com/u/r/master/img.png"])
       (Mock.world
          (Mock.platform true
             [Mock.created "https://raw.githubusercontent.com/u/r/master/img.png"])
          (Mock.host "t" "u" "r")
          [Mock.notFound;
           Mock.ok (Mock.created
                      "https://raw.githubusercontent.com/u/r/master/img.png")])
       (toUtf8 "hi") "img.png" "" ltac:(discriminate) eq_refl eq_refl)
    eq_refl)).
  vm_compute. discriminate.
Defined.

(** ** [remove] *)

(** C3.  For a URL the object owns, [remove] takes what follows the
    prefix in the URL, passes it through [purifyUrl], and asks for the
    file at this path.  When the reply has no error and a non-empty
    [sha], the next and last request is a DELETE to the same address
    whose body is the JSON object with the members [message],
    ["VX_DEL: {path}"], and [sha], the SHA of the reply; when that
    request succeeds too, [remove] returns true. *)
Theorem remove_sends_delete `{Platform} (w : World) (url msg sha : QString) :
  let this := self w in
  let rest := QStr.mid url (QStr.size (m_imageUrlPrefix this)) in
  let path := purifyUrl rest in
  let address := contentsUrl (m_userName this) (m_repoName this) path in
  let headers := standardHeaders (m_personalAccessToken this) in
  let fetch := Get address headers in
  let delete :=
    Delete address headers
           (toJsonString {[ "message" := JString ("VX_DEL: " +:+ path);
                            "sha" := JString sha ]}) in
  let info := transport fetch (server w) in
  let gone := transport delete info.2 in
  ownsUrl this url = true ->
  ready this = true ->
  m_error info.1 = NoError ->
  Json.stringAt (fromJsonString (m_data info.1)) "sha" = sha ->
  sha <> "" ->
  url = m_imageUrlPrefix this +:+ rest
  /\ sentBetween w (remove url msg w).2 = [fetch; delete]
  /\ (m_error gone.1 = NoError ->
      remove url msg w = (Returned (true, msg), after w gone.2 [fetch; delete])).
Proof.
  intros this rest path address headers fetch delete info gone
         Hown Hready Hinfo Hsha Hnonempty.
  split; [by apply startsWith_split|].
  unfold remove.
  rewrite (bind_run _ _ w w (self w)) by apply this_run.
  fold this.
  rewrite (bind_run _ _ w w ()) by by apply assert_holds.
  rewrite Hready. cbn [negb]. fold rest path.
  rewrite arg_contents_url, prepareCommonHeaders_standard.
  unfold request, deleteResource.
  rewrite (bind_run _ _ w _ _ (send_result _ w)).
  fold address headers fetch info. rewrite Hinfo.
  change (Z.eqb NoError NoError) with true. cbn [negb].
  rewrite (bind_run _ _ _ _ ()) by
    (apply assert_holds, negb_true_iff, isEmpty_object;
     apply (stringAt_nonempty _ "sha"); by rewrite Hsha).
  rewrite toString_at_ref, Hsha.
  apply isEmpty_false in Hnonempty as Hfalse. rewrite Hfalse.
  rewrite arg_del.
  match goal with |- context [toJsonString ?o] =>
    change o with ({[ "message" := JString ("VX_DEL: " +:+ path);
                      "sha" := JString sha ]} : QJsonObject)
  end.
  fold delete.
  rewrite (bind_run _ _ _ _ _ (send_result _ _)).
  cbn [server after]. fold (after w info.2 [fetch]).
  rewrite after_after. cbn [app]. fold gone.
  split.
  - unfold mret, M_ret.
    destruct (negb (Z.eqb (m_error gone.1) NoError));
      cbn [snd]; apply sentBetween_after.
  - intros Hgone. rewrite Hgone. by change (Z.eqb NoError NoError) with true.
Qed.

(** The example of the specification: the SHA [abc123] and the path
    [img.png] give the body
    [{"message":"VX_DEL: img.png","sha":"abc123"}]. *)
Lemma remove_sends_delete_witness :
  let P := Mock.platform true [Mock.fileInfo "img.png" "abc123"] in
  let w :=
    Mock.world P (Mock.host "t" "u" "r")
      [Mock.ok (Mock.fileInfo "img.png" "abc123"); Mock.ok ∅] in
  remove "https://raw.githubusercontent.com/u/r/master/img.png" "" w
  = (Returned (true, ""),
     after w []
       [Get (contentsUrl "u" "r" "img.png") (standardHeaders "t");
        Delete (contentsUrl "u" "r" "img.png") (standardHeaders "t")
               (toUtf8
                  ("{" +:+ Mock.dq +:+ "message" +:+ Mock.dq +:+ ":"
                       +:+ Mock.dq +:+ "VX_DEL: img.png" +:+ Mock.dq +:+ ","
                       +:+ Mock.dq +:+ "sha" +:+ Mock.dq +:+ ":"
                       +:+ Mock.dq +:+ "abc123" +:+ Mock.dq +:+ "}"))]).
Proof.
  apply (proj2 (proj2
    (@remove_sends_delete
       (Mock.platform true [Mock.fileInfo "img.png" "abc123"])
       (Mock.world (Mock.platform true [Mock.fileInfo "img.png" "abc123"])
                   (Mock.host "t" "u" "r")
                   [Mock.ok (Mock.fileInfo "img.png" "abc123"); Mock.ok ∅])
       "https://raw.githubusercontent.com/u/r/master/img.png" "" "abc123"
       eq_refl eq_refl eq_refl eq_refl ltac:(discriminate)))
    eq_refl).
Defined.

(** C4, as the spec has it, fails in a build with assertions: when the
    body of the reply to the GET is not a JSON object, or is the empty
    one, the SHA is missing, but the call dies in
    [Q_ASSERT(!replyObj.isEmpty())] and returns nothing.  No DELETE is
    sent in this case either. *)
Lemma remove_dies_on_empty_reply :
  let P := Mock.platform true [] in
  let w := Mock.world P (Mock.host "t" "u" "r") [Mock.ok ∅] in
  let url := "https://raw.githubusercontent.com/u/r/master/img.png" in
  let fetch := Get (contentsUrl "u" "r" "img.png") (standardHeaders "t") in
  ownsUrl (self w) url = true
  /\ ready (self w) = true
  /\ m_error (transport fetch (server w)).1 = NoError
  /\ Json.stringAt
       (fromJsonString (m_data (transport fetch (server w)).1)) "sha" = ""
  /\ remove url "" w = (Aborted, after w [] [fetch]).
Proof. split_and!; reflexivity. Qed.

(** C4, amended.  For a URL the object owns and a ready configuration,
    when the GET that fetches the SHA has no error but the [sha] of the
    reply is empty or missing, the GET is the only request of the call:
    no DELETE is sent.  When moreover the build has no assertions or the
    reply is a non-empty object, [remove] returns false with the message
    that the SHA could not be fetched, naming the path and the body. *)
Theorem remove_without_sha `{Platform} (w : World) (url msg : QString) :
  let this := self w in
  let path := purifyUrl (QStr.mid url (QStr.size (m_imageUrlPrefix this))) in
  let fetch :=
    Get (contentsUrl (m_userName this) (m_repoName this) path)
        (standardHeaders (m_personalAccessToken this)) in
  let info := transport fetch (server w) in
  let replyObj := fromJsonString (m_data info.1) in
  ownsUrl this url = true ->
  ready this = true ->
  m_error info.1 = NoError ->
  Json.stringAt replyObj "sha" = "" ->
  sentBetween w (remove url msg w).2 = [fetch]
  /\ Forall (fun r => isDelete r = false) (sentBetween w (remove url msg w).2)
  /\ (debug_build = false \/ replyObj <> ∅ ->
      remove url msg w
      = (Returned
           (false, "Failed to fetch SHA about the resource (" +:+ path +:+ ") ("
                     +:+ fromUtf8 (m_data info.1) +:+ ")."),
         after w info.2 [fetch])).
Proof.
  intros this path fetch info replyObj Hown Hready Hinfo Hsha.
  assert (remove url msg w
          = (Q_ASSERT (negb (Json.isEmpty replyObj));;
             mret (false, "Failed to fetch SHA about the resource (" +:+ path
                            +:+ ") (" +:+ fromUtf8 (m_data info.1) +:+ ")."))
              (after w info.2 [fetch])) as E.
  { unfold remove.
    rewrite (bind_run _ _ w w (self w)) by apply this_run.
    fold this.
    rewrite (bind_run _ _ w w ()) by by apply assert_holds.
    rewrite Hready. cbn [negb]. fold path.
    rewrite arg_contents_url, prepareCommonHeaders_standard. unfold request.
    rewrite (bind_run _ _ w _ _ (send_result _ w)).
    fold fetch info. rewrite Hinfo.
    change (Z.eqb NoError NoError) with true. cbn [negb]. fold replyObj.
    rewrite toString_at_ref, Hsha. cbn [QStr.isEmpty].
    by rewrite arg_sha_failed. }
  assert (sentBetween w (remove url msg w).2 = [fetch]) as Hsent.
  { rewrite E. unfold mbind, M_bind, Q_ASSERT, mret, M_ret.
    destruct (debug_build && negb (negb (Json.isEmpty replyObj)));
      cbn [snd]; apply sentBetween_after. }
  split_and!; [done | rewrite Hsent; by repeat constructor |].
  intros Hassert. rewrite E.
  rewrite (bind_run _ _ _ (after w info.2 [fetch]) ()); [done|].
  destruct Hassert as [Hrelease|Hobj];
    [by apply assert_release
    |by apply assert_holds, negb_true_iff, isEmpty_object].
Qed.

Lemma remove_without_sha_witness :
  let P := Mock.platform true [Mock.nameOnly "img.png"] in
  let w := Mock.world P (Mock.host "t" "u" "r")
                      [Mock.ok (Mock.nameOnly "img.png")] in
  remove "https://raw.githubusercontent.com/u/r/master/img.png" "" w
  = (Returned
       (false, "Failed to fetch SHA about the resource (img.png) ({"
                 +:+ Mock.dq +:+ "name" +:+ Mock.dq +:+ ":"
                 +:+ Mock.dq +:+ "img.png" +:+ Mock.dq +:+ "})."),
     after w [] [Get (contentsUrl "u" "r" "img.png") (standardHeaders "t")]).
Proof.
  apply (proj2 (proj2
    (@remove_without_sha
       (Mock.platform true [Mock.nameOnly "img.png"])
       (Mock.world (Mock.platform true [Mock.nameOnly "img.png"])
                   (Mock.host "t" "u" "r")
                   [Mock.ok (Mock.nameOnly "img.png")])
       "https://raw.githubusercontent.com/u/r/master/img.png" ""
       eq_refl eq_refl eq_refl eq_refl))).
  right. vm_compute. discriminate.
Defined.

(** ** The scenario of the specification

    Configure with the token [t], the owner [alice] and the repository
    [notes]; create [a/b.png] while the server reports that it is not
    there and accepts the upload; then remove the URL that came back
    while the server gives the SHA [deadbeef] and accepts the deletion. *)
Example create_then_remove :
  let url := "https://raw.githubusercontent.com/alice/notes/master/a/b.png" in
  let P :=
    Mock.platform true [Mock.created url; Mock.fileInfo "b.png" "deadbeef"] in
  let w :=
    Mock.world P (Mock.host "t" "alice" "notes")
      [Mock.notFound; Mock.ok (Mock.created url);
       Mock.ok (Mock.fileInfo "b.png" "deadbeef"); Mock.ok ∅] in
  ready (self w) = true
  /\ (create (toUtf8 "hi") "a/b.png" "" w).1 = Returned (url, "")
  /\ ownsUrl (self w) url = true
  /\ (remove url "" (create (toUtf8 "hi") "a/b.png" "" w).2).1
     = Returned (true, "")
  /\ map (fun r => match r with Get _ _ => "GET" | Put _ _ _ => "PUT"
                               | Delete _ _ _ => "DELETE" end)
         (trace (remove url "" (create (toUtf8 "hi") "a/b.png" "" w).2).2)
     = ["GET"; "PUT"; "GET"; "DELETE"].
Proof. by vm_compute. Qed.

(** * Further properties *)

(** ** The methods, case by case *)

Section Cases.

Context `{Platform}.

Lemma assert_bind {A} (cond : bool) (k : M A) (w : World) :
  (Q_ASSERT cond;; k) w
  = if debug_build && negb cond then (Aborted, w) else k w.
Proof.
  unfold mbind, M_bind, Q_ASSERT. by destruct (debug_build && negb cond).
Qed.

Lemma arg_query_failed (a b c : QString) :
  QStr.arg (tr "Failed to query the resource at the image host (%1) (%2) (%3).")
           [a; b; c]
  = "Failed to query the resource at the image host (" +:+ a +:+ ") ("
      +:+ b +:+ ") (" +:+ c +:+ ").".
Proof. reflexivity. Qed.

Lemma arg_fetch_failed (a : QString) :
  QStr.arg (tr "Failed to fetch information about the resource (%1).") [a]
  = "Failed to fetch information about the resource (" +:+ a +:+ ").".
Proof. reflexivity. Qed.

Lemma arg_delete_failed (a b : QString) :
  QStr.arg (tr "Failed to delete resource (%1) (%2).") [a; b]
  = "Failed to delete resource (" +:+ a +:+ ") (" +:+ b +:+ ").".
Proof. reflexivity. Qed.

(** [createResource], branch by branch, for a path that is not empty. *)
Lemma createResource_cases (w : World) (content : QByteArray)
                           (path msg : QString) :
  let this := self w in
  let look := lookRequest this path in
  let upload := uploadRequest this content path in
  let missing := transport look (server w) in
  let done := transport upload missing.2 in
  let replyObj := fromJsonString (m_data done.1) in
  let download_url :=
    Json.stringAt (Json.objectAt replyObj "content") "download_url" in
  path <> "" ->
  createResource content path msg w
  = if negb (ready this) then
      (Returned ("", "Invalid GitHub image host configuration."), w)
    else if Z.eqb (m_error missing.1) NoError then
      (Returned ("", "The resource already exists at the image host ("
                       +:+ path +:+ ")."),
       after w missing.2 [look])
    else if negb (Z.eqb (m_error missing.1) ContentNotFoundError) then
      (Returned ("", queryFailed this path missing.1), after w missing.2 [look])
    else if negb (Z.eqb (m_error done.1) NoError) then
      (Returned ("", createFailed this path done.1),
       after w done.2 [look; upload])
    else if debug_build && Json.isEmpty replyObj then
      (Aborted, after w done.2 [look; upload])
    else if QStr.isEmpty download_url then
      (Returned ("", createFailed this path done.1),
       after w done.2 [look; upload])
    else
      (Returned (download_url, msg), after w done.2 [look; upload]).
Proof.
  intros this look upload missing done replyObj download_url Hp.
  unfold createResource.
  rewrite assert_bind.
  apply isEmpty_false in Hp as Hp'. rewrite Hp'. cbn [negb]. rewrite andb_false_r.
  rewrite (bind_run _ _ w w (self w)) by apply this_run. fold this.
  destruct (ready this); cbn [negb]; [|done].
  rewrite arg_contents, prepareCommonHeaders_standard.
  fold (contentsUrl (m_userName this) (m_repoName this) path).
  unfold request, put.
  fold (lookRequest this path). fold look.
  rewrite (bind_run _ _ w _ _ (send_result _ w)). fold missing.
  destruct (Z.eqb (m_error missing.1) NoError); [by rewrite arg_exists|].
  destruct (negb (Z.eqb (m_error missing.1) ContentNotFoundError));
    [by rewrite arg_query_failed|].
  rewrite arg_add.
  match goal with |- context [toJsonString ?o] =>
    change o with ({[ "message" := JString ("VX_ADD: " +:+ path);
                      "content" := JString (fromUtf8 (Base64.toBase64 content)) ]}
                   : QJsonObject)
  end.
  fold (uploadRequest this content path). fold upload.
  rewrite (bind_run _ _ _ _ _ (send_result _ _)).
  cbn [server after]. fold (after w missing.2 [look]).
  rewrite after_after. cbn [app]. fold done replyObj.
  rewrite arg_create_failed. fold (createFailed this path done.1).
  destruct (negb (Z.eqb (m_error done.1) NoError)); [done|].
  rewrite assert_bind, negb_involutive.
  destruct (debug_build && Json.isEmpty replyObj); [done|].
  rewrite toObject_at_ref, toString_value. fold download_url.
  destruct (QStr.isEmpty download_url) eqn:E; [|done].
  by apply isEmpty_true in E as ->.
Qed.

(** [create], branch by branch. *)
Lemma create_cases (w : World) (content : QByteArray) (path msg : QString) :
  create content path msg w
  = if QStr.isEmpty path then
      (Returned ("", "Failed to create image with empty path."), w)
    else createResource content path msg w.
Proof.
  destruct (QStr.isEmpty path) eqn:E.
  - apply isEmpty_true in E as ->. reflexivity.
  - by apply create_nonempty, isEmpty_false.
Qed.

(** [remove], branch by branch. *)
Lemma remove_cases (w : World) (url msg : QString) :
  let this := self w in
  let path := resourcePath this url in
  let fetch := lookRequest this path in
  let info := transport fetch (server w) in
  let replyObj := fromJsonString (m_data info.1) in
  let sha := Json.stringAt replyObj "sha" in
  let delete := deleteRequest this path sha in
  let gone := transport delete info.2 in
  remove url msg w
  = if debug_build && negb (ownsUrl this url) then (Aborted, w)
    else if negb (ready this) then
      (Returned (false, "Invalid GitHub image host configuration."), w)
    else if negb (Z.eqb (m_error info.1) NoError) then
      (Returned (false, "Failed to fetch information about the resource ("
                          +:+ path +:+ ")."),
       after w info.2 [fetch])
    else if debug_build && Json.isEmpty replyObj then
      (Aborted, after w info.2 [fetch])
    else if QStr.isEmpty sha then
      (Returned (false, "Failed to fetch SHA about the resource (" +:+ path
                          +:+ ") (" +:+ fromUtf8 (m_data info.1) +:+ ")."),
       after w info.2 [fetch])
    else if negb (Z.eqb (m_error gone.1) NoError) then
      (Returned (false, "Failed to delete resource (" +:+ path +:+ ") ("
                          +:+ fromUtf8 (m_data gone.1) +:+ ")."),
       after w gone.2 [fetch; delete])
    else
      (Returned (true, msg), after w gone.2 [fetch; delete]).
Proof.
  intros this path fetch info replyObj sha delete gone.
  unfold remove.
  rewrite (bind_run _ _ w w (self w)) by apply this_run. fold this.
  rewrite assert_bind.
  destruct (debug_build && negb (ownsUrl this url)); [done|].
  destruct (ready this); cbn [negb]; [|done].
  fold (resourcePath this url). fold path.
  rewrite arg_contents_url, prepareCommonHeaders_standard.
  unfold request, deleteResource.
  fold (lookRequest this path). fold fetch.
  rewrite (bind_run _ _ w _ _ (send_result _ w)). fold info.
  destruct (negb (Z.eqb (m_error info.1) NoError));
    [by rewrite arg_fetch_failed|].
  fold replyObj. rewrite assert_bind, negb_involutive.
  destruct (debug_build && Json.isEmpty replyObj); [done|].
  rewrite toString_at_ref. fold sha.
  destruct (QStr.isEmpty sha); [by rewrite arg_sha_failed|].
  rewrite arg_del.
  match goal with |- context [toJsonString ?o] =>
    change o with ({[ "message" := JString ("VX_DEL: " +:+ path);
                      "sha" := JString sha ]} : QJsonObject)
  end.
  fold (deleteRequest this path sha). fold delete.
  rewrite (bind_run _ _ _ _ _ (send_result _ _)).
  cbn [server after]. fold (after w info.2 [fetch]).
  rewrite after_after. cbn [app]. fold gone.
  destruct (negb (Z.eqb (m_error gone.1) NoError));
    [by rewrite arg_delete_failed | done].
Qed.

(** [testConfig], branch by branch. *)
Lemma testConfig_cases (j : QJsonObject) (msg : QString) (w : World) :
  let token := Json.stringAt j "personal_access_token" in
  let userName := Json.stringAt j "user_name" in
  let repoName := Json.stringAt j "repository_name" in
  let ask :=
    Get (QUrl_of ("https://api.github.com/repos/" +:+ userName +:+ "/" +:+ repoName))
        (standardHeaders token) in
  let reply := (transport ask (server w)).1 in
  testConfig j msg w
  = if QStr.isEmpty token || QStr.isEmpty userName || QStr.isEmpty repoName then
      (Returned
         (false, "PersonalAccessToken/UserName/RepositoryName should not be empty."),
       w)
    else
      (Returned (Z.eqb (m_error reply) NoError, fromUtf8 (m_data reply)),
       after w (transport ask (server w)).2 [ask]).
Proof.
  intros token userName repoName ask reply.
  unfold testConfig, parseConfig. rewrite !toString_value.
  cbv beta iota zeta. fold token userName repoName.
  destruct (QStr.isEmpty token || QStr.isEmpty userName || QStr.isEmpty repoName);
    [done|].
  unfold getRepoInfo, request. rewrite arg_repos.
  by rewrite (bind_run _ _ w _ _ (bind_run _ _ w _ _ (send_result _ w))).
Qed.

End Cases.

Ltac split_branches :=
  repeat match goal with
         | |- context [if ?c then _ else _] =>
             let E := fresh "E" in destruct c eqn:E
         end.

Lemma eqb_false (e e' : NetworkError) : Z.eqb e e' = false <-> e <> e'.
Proof. apply Z.eqb_neq. Qed.

Lemma eqb_true (e e' : NetworkError) : Z.eqb e e' = true <-> e = e'.
Proof. apply Z.eqb_eq. Qed.

(** ** The failures of [createResource] that come from the network *)

(** X1.  With a non-empty path and a ready configuration, when the GET
    that looks for the path comes back with an error other than
    not-found, [createResource] and [create] return the empty URL and a
    message that gives the address, the text of the error and the body of
    the reply; the GET is the only request: no PUT is sent. *)
Theorem createResource_query_failure `{Platform} (w : World)
    (content : QByteArray) (path msg : QString) :
  let this := self w in
  let look := lookRequest this path in
  let answer := transport look (server w) in
  path <> "" ->
  ready this = true ->
  m_error answer.1 <> NoError ->
  m_error answer.1 <> ContentNotFoundError ->
  createResource content path msg w
  = (Returned
       ("", "Failed to query the resource at the image host ("
              +:+ contentsAddress (m_userName this) (m_repoName this) path
              +:+ ") (" +:+ errorStr answer.1 +:+ ") ("
              +:+ fromUtf8 (m_data answer.1) +:+ ")."),
     after w answer.2 [look])
  /\ create content path msg w = createResource content path msg w.
Proof.
  intros this look answer Hp Hready Herr Hnf.
  split; [|by apply create_nonempty].
  rewrite createResource_cases by done. fold this look answer.
  rewrite Hready. cbn [negb].
  apply eqb_false in Herr as ->. by apply eqb_false in Hnf as ->.
Qed.

Lemma createResource_query_failure_witness :
  let P := Mock.platform true [] in
  let w := Mock.world P (Mock.host "t" "u" "r") [Mock.refused] in
  createResource [] "img.png" "" w
  = (Returned
       ("", "Failed to query the resource at the image host (https://api.github.com/repos/u/r/contents/img.png) (network error 1) ()."),
     after w [] [lookRequest (Mock.host "t" "u" "r") "img.png"]).
Proof.
  apply (proj1 (@createResource_query_failure
                  (Mock.platform true [])
                  (Mock.world (Mock.platform true []) (Mock.host "t" "u" "r")
                              [Mock.refused])
                  [] "img.png" "" ltac:(discriminate) eq_refl
                  ltac:(discriminate) ltac:(discriminate))).
Defined.

(** X2.  With a non-empty path and a ready configuration, when the path
    is reported as not found and the PUT comes back with an error,
    [createResource] returns the empty URL and a message that gives the
    address, the text of the error and the body of the reply to the PUT;
    the GET and the PUT are the requests of the call. *)
Theorem createResource_upload_failure `{Platform} (w : World)
    (content : QByteArray) (path msg : QString) :
  let this := self w in
  let look := lookRequest this path in
  let upload := uploadRequest this content path in
  let missing := transport look (server w) in
  let done := transport upload missing.2 in
  path <> "" ->
  ready this = true ->
  m_error missing.1 = ContentNotFoundError ->
  m_error done.1 <> NoError ->
  createResource content path msg w
  = (Returned
       ("", "Failed to create resource at the image host ("
              +:+ contentsAddress (m_userName this) (m_repoName this) path
              +:+ ") (" +:+ errorStr done.1 +:+ ") ("
              +:+ fromUtf8 (m_data done.1) +:+ ")."),
     after w done.2 [look; upload])
  /\ create content path msg w = createResource content path msg w.
Proof.
  intros this look upload missing done Hp Hready Hmissing Herr.
  split; [|by apply create_nonempty].
  rewrite createResource_cases by done. fold this look upload missing done.
  rewrite Hready, Hmissing. cbn [negb].
  change (Z.eqb ContentNotFoundError NoError) with false.
  change (Z.eqb ContentNotFoundError ContentNotFoundError) with true.
  cbn [negb]. by apply eqb_false in Herr as ->.
Qed.

Lemma createResource_upload_failure_witness :
  let P := Mock.platform true [] in
  let w := Mock.world P (Mock.host "t" "u" "r") [Mock.notFound] in
  createResource [] "img.png" "" w
  = (Returned
       ("", "Failed to create resource at the image host (https://api.github.com/repos/u/r/contents/img.png) (network error 1) ()."),
     after w []
       [lookRequest (Mock.host "t" "u" "r") "img.png";
        uploadRequest (Mock.host "t" "u" "r") [] "img.png"]).
Proof.
  apply (proj1 (@createResource_upload_failure
                  (Mock.platform true [])
                  (Mock.world (Mock.platform true []) (Mock.host "t" "u" "r")
                              [Mock.notFound])
                  [] "img.png" "" ltac:(discriminate) eq_refl eq_refl
                  ltac:(discriminate))).
Defined.

(** ** The failures of [remove] that come from the network *)





(** ** What the methods send *)

(** X5.  Whatever the content, the path, the configuration and the
    server, a call of [create] leaves the members of the object as they
    were, keeps the requests sent before it, and sends nothing, or the
    GET for the path, or that GET followed by the PUT with the content,
    and never a DELETE.  When it sends nothing the world is unchanged;
    the PUT is only sent for a non-empty path, a ready configuration and
    a path reported as not found. *)
Theorem create_request_discipline `{Platform} (w : World)
    (content : QByteArray) (path msg : QString) :
  let this := self w in
  let look := lookRequest this path in
  let upload := uploadRequest this content path in
  let w' := (create content path msg w).2 in
  let sent := sentBetween w w' in
  self w' = self w
  /\ trace w' = trace w ++ sent
  /\ (sent = [] \/ sent = [look] \/ sent = [look; upload])
  /\ (sent = [] -> w' = w)
  /\ (sent = [look; upload] ->
      path <> "" /\ ready this = true
      /\ m_error (transport look (server w)).1 = ContentNotFoundError).
Proof.
  cbv zeta. rewrite create_cases.
  destruct (QStr.isEmpty path) eqn:Hp.
  { cbn [snd]. rewrite sentBetween_same, app_nil_r. split_and!; auto; done. }
  apply isEmpty_false in Hp.
  rewrite createResource_cases by done.
  split_branches; cbn [snd];
    rewrite ?sentBetween_same, ?sentBetween_after, ?app_nil_r;
    (split_and!; [reflexivity | reflexivity | auto | try done | try done]).
  all: intros _; split_and!; [done | by destruct (ready (self w)) |].
  all: match goal with
       | E : negb (Z.eqb _ ContentNotFoundError) = false |- _ =>
           by apply negb_false_iff, eqb_true in E
       end.
Qed.


(** ** Reading the results *)

(** X7.  When [create] returns a URL that is not empty, the upload took
    place: the path was not empty, the configuration was ready, the GET
    reported the path as not found, the PUT came back without error, the
    URL is the [content.download_url] of its reply, the message of the
    caller is untouched, and the GET and the PUT are the requests of the
    call. *)
Theorem create_url_means_uploaded `{Platform} (w w' : World)
    (content : QByteArray) (path msg url m : QString) :
  let this := self w in
  let look := lookRequest this path in
  let upload := uploadRequest this content path in
  let missing := transport look (server w) in
  let done := transport upload missing.2 in
  let replyObj := fromJsonString (m_data done.1) in
  create content path msg w = (Returned (url, m), w') ->
  url <> "" ->
  path <> "" /\ ready this = true
  /\ m_error missing.1 = ContentNotFoundError
  /\ m_error done.1 = NoError
  /\ url = Json.stringAt (Json.objectAt replyObj "content") "download_url"
  /\ m = msg
  /\ w' = after w done.2 [look; upload].
Proof.
  cbv zeta. intros Hrun Hurl. revert Hrun. rewrite create_cases.
  destruct (QStr.isEmpty path) eqn:Hp; [by intros [= <- _ _]|].
  apply isEmpty_false in Hp.
  rewrite createResource_cases by done.
  split_branches; intros Hrun; simplify_eq; try done.
  split_and!; try done.
  - by destruct (ready (self w)).
  - match goal with
    | E : negb (Z.eqb _ ContentNotFoundError) = false |- _ =>
        by apply negb_false_iff, eqb_true in E
    end.
  - match goal with
    | E : negb (Z.eqb _ NoError) = false |- _ =>
        by apply negb_false_iff, eqb_true in E
    end.
Qed.

Lemma create_url_means_uploaded_witness :
  let url := "https://raw.githubusercontent.com/u/r/master/img.png" in
  let P := Mock.platform true [Mock.created url] in
  let w := Mock.world P (Mock.host "t" "u" "r")
                      [Mock.notFound; Mock.ok (Mock.created url)] in
  ready (self w) = true
  /\ (create (toUtf8 "hi") "img.png" "" w).2
     = after w [] [lookRequest (self w) "img.png";
                   uploadRequest (self w) (toUtf8 "hi") "img.png"].
Proof.
  pose proof (@create_url_means_uploaded
                (Mock.platform true
                   [Mock.created "https://raw.githubusercontent.com/u/r/master/img.png"])
                (Mock.world
                   (Mock.platform true
                      [Mock.created "https://raw.githubusercontent.com/u/r/master/img.png"])
                   (Mock.host "t" "u" "r")
                   [Mock.notFound;
                    Mock.ok (Mock.created
                               "https://raw.githubusercontent.com/u/r/master/img.png")])
                _ (toUtf8 "hi") "img.png" ""
                "https://raw.githubusercontent.com/u/r/master/img.png" ""
                eq_refl ltac:(discriminate))
    as (_ & Hready & _ & _ & _ & _ & Hw).
  split; [exact Hready | exact Hw].
Defined.

Lemma message_nonempty (c : ascii) (s r : QString) : String c s +:+ r <> "".
Proof. by rewrite str_app_cons. Qed.

(** X8.  When [create] returns the empty URL, the message it hands back
    is not empty, whatever the message of the caller was: every way to
    fail sets a message, and the call that succeeds never returns the
    empty URL. *)
Theorem create_failure_has_message `{Platform} (w w' : World)
    (content : QByteArray) (path msg m : QString) :
  create content path msg w = (Returned ("", m), w') -> m <> "".
Proof.
  rewrite create_cases.
  destruct (QStr.isEmpty path) eqn:Hp; [by intros [= <- _]|].
  apply isEmpty_false in Hp.
  rewrite createResource_cases by done.
  split_branches; intros Hrun; simplify_eq;
    try apply message_nonempty; try done.
  match goal with E : QStr.isEmpty _ = false, E' : _ = "" |- _ =>
    by rewrite E' in E end.
Qed.

Lemma create_failure_has_message_witness :
  let P := Mock.platform true [] in
  let w := Mock.world P constructed [] in
  (create [] "img.png" "" w).1
  = Returned ("", "Invalid GitHub image host configuration.")
  /\ "Invalid GitHub image host configuration." <> "".
Proof.
  split; [reflexivity|].
  apply (@create_failure_has_message
           (Mock.platform true [])
           (Mock.world (Mock.platform true []) constructed []) _
           [] "img.png" "" _ eq_refl).
Defined.



(** X10.  When [remove] returns false, the message it hands back is not
    empty, whatever the message of the caller was. *)
Theorem remove_failure_has_message `{Platform} (w w' : World)
    (url msg m : QString) :
  remove url msg w = (Returned (false, m), w') -> m <> "".
Proof.
  rewrite remove_cases.
  split_branches; intros Hrun; simplify_eq;
    first [apply message_nonempty | done].
Qed.

Lemma remove_failure_has_message_witness :
  let P := Mock.platform true [] in
  let w := Mock.world P constructed [] in
  (remove "https://example.org/img.png" "" w).1
  = Returned (false, "Invalid GitHub image host configuration.")
  /\ "Invalid GitHub image host configuration." <> "".
Proof.
  split; [reflexivity|].
  apply (@remove_failure_has_message
           (Mock.platform true [])
           (Mock.world (Mock.platform true []) constructed []) _
           "https://example.org/img.png" "" _ eq_refl).
Defined.

(** ** When a call dies in an assertion *)

Lemma isEmpty_object_true (o : QJsonObject) : Json.isEmpty o = true <-> o = ∅.
Proof. unfold Json.isEmpty. apply bool_decide_eq_true. Qed.

Ltac tests_to_props :=
  repeat match goal with
         | E : negb _ = true |- _ => apply negb_true_iff in E
         | E : negb _ = false |- _ => apply negb_false_iff in E
         | E : Z.eqb _ _ = true |- _ => apply Z.eqb_eq in E
         | E : Z.eqb _ _ = false |- _ => apply Z.eqb_neq in E
         | E : _ && _ = true |- _ => apply andb_true_iff in E as [? ?]
         | E : _ && _ = false |- _ => apply andb_false_iff in E as [E|E]
         | E : QStr.isEmpty _ = true |- _ => apply isEmpty_true in E
         | E : QStr.isEmpty _ = false |- _ => apply isEmpty_false in E
         | E : Json.isEmpty _ = true |- _ => apply isEmpty_object_true in E
         | E : Json.isEmpty _ = false |- _ => apply isEmpty_object in E
         end.

(** X11.  A call of [create] dies in an assertion in one case only: the
    build has assertions, the path is not empty, the configuration is
    ready, the GET reported the path as not found, the PUT came back
    without error, and the body of its reply gives the empty object.  In
    particular a release build always returns. *)
Theorem create_aborts_iff `{Platform} (w : World) (content : QByteArray)
                          (path msg : QString) :
  let this := self w in
  let look := lookRequest this path in
  let upload := uploadRequest this content path in
  let missing := transport look (server w) in
  let done := transport upload missing.2 in
  (create content path msg w).1 = Aborted
  <-> debug_build = true /\ path <> "" /\ ready this = true
      /\ m_error missing.1 = ContentNotFoundError
      /\ m_error done.1 = NoError
      /\ fromJsonString (m_data done.1) = ∅.
Proof.
  cbv zeta. rewrite create_cases.
  destruct (QStr.isEmpty path) eqn:Hp.
  { apply isEmpty_true in Hp. cbn [fst].
    split; [done | by intros (_ & Hpath & _)]. }
  apply isEmpty_false in Hp.
  rewrite createResource_cases by done.
  unfold NoError, ContentNotFoundError.
  split_branches; cbn [fst]; tests_to_props;
    (split; [intros ?|intros (? & ?)]); first [done | intuition congruence].
Qed.

(** X12.  A call of [remove] dies in an assertion in two cases only, both
    in a build with assertions: the object does not own the URL; or the
    configuration is ready, the GET came back without error, and the body
    of its reply gives the empty object.  In particular a release build
    always returns. *)
Theorem remove_aborts_iff `{Platform} (w : World) (url msg : QString) :
  let this := self w in
  let info := transport (lookRequest this (resourcePath this url)) (server w) in
  (remove url msg w).1 = Aborted
  <-> debug_build = true
      /\ (ownsUrl this url = false
          \/ (ready this = true /\ m_error info.1 = NoError
              /\ fromJsonString (m_data info.1) = ∅)).
Proof.
  cbv zeta. rewrite remove_cases. unfold NoError.
  split_branches; cbn [fst]; tests_to_props;
    (split; [intros ?|intros (? & ?)]); first [done | intuition congruence].
Qed.

(** ** [testConfig] and the stored configuration *)

(** X13.  [testConfig] applied to what [getConfig] gives for an object
    passes its test of the three fields exactly when [ready()] holds for
    that object: if it does, the one GET goes to the repository of the
    object with its token and the answer is that of the reply; if not,
    the call fails with the message that names the fields and sends
    nothing. *)
Theorem testConfig_of_getConfig `{Platform} (this : GitHubImageHost)
                                (msg : QString) (w : World) :
  let ask :=
    Get (QUrl_of ("https://api.github.com/repos/" +:+ m_userName this +:+ "/"
                    +:+ m_repoName this))
        (standardHeaders (m_personalAccessToken this)) in
  let answer := transport ask (server w) in
  testConfig (getConfig this) msg w
  = if ready this then
      (Returned (bool_decide (m_error answer.1 = NoError),
                 fromUtf8 (m_data answer.1)),
       after w answer.2 [ask])
    else
      (Returned
         (false, "PersonalAccessToken/UserName/RepositoryName should not be empty."),
       w).
Proof.
  intros ask answer. rewrite testConfig_cases.
  change (Json.stringAt (getConfig this) "personal_access_token")
    with (m_personalAccessToken this).
  change (Json.stringAt (getConfig this) "user_name") with (m_userName this).
  change (Json.stringAt (getConfig this) "repository_name")
    with (m_repoName this).
  fold ask answer. unfold ready. rewrite eqb_decide.
  by destruct (QStr.isEmpty (m_personalAccessToken this)),
       (QStr.isEmpty (m_userName this)), (QStr.isEmpty (m_repoName this)).
Qed.

(** X14.  [testConfig] always returns, leaves the members of the object
    as they were, and sends nothing or one GET.  Its answer depends on
    the candidate and on the server only: not on the members of the
    object, not on the message of the caller, not on what was sent
    before. *)
Theorem testConfig_stands_alone `{Platform} (j : QJsonObject)
    (msg msg' : QString) (w : World) (other : GitHubImageHost)
    (log : list Request) :
  let w' := (testConfig j msg w).2 in
  (exists ok m, (testConfig j msg w).1 = Returned (ok, m))
  /\ self w' = self w
  /\ trace w' = trace w ++ sentBetween w w'
  /\ (sentBetween w w' = []
      \/ exists url headers, sentBetween w w' = [Get url headers])
  /\ (testConfig j msg' {| self := other; server := server w; trace := log |}).1
     = (testConfig j msg w).1.
Proof.
  cbv zeta. rewrite !testConfig_cases. cbn [server].
  split_branches; cbn [fst snd];
    rewrite ?sentBetween_same, ?sentBetween_after, ?app_nil_r;
    split_and!; eauto.
Qed.

(** ** Configuration carried from one object to another *)

(** X15.  [setConfig] applied to what [getConfig] gives for an object,
    on any other object, yields the token, the user name and the
    repository name of the first one, whatever the other held, and the
    prefix that belongs to them; [ready()] and [getConfig()] then answer
    as on the first object. *)
Theorem getConfig_carries_configuration (this other : GitHubImageHost) :
  let copy := setConfig (getConfig this) other in
  m_personalAccessToken copy = m_personalAccessToken this
  /\ m_userName copy = m_userName this
  /\ m_repoName copy = m_repoName this
  /\ m_imageUrlPrefix copy
     = "https://raw.githubusercontent.com/" +:+ m_userName this +:+ "/"
         +:+ m_repoName this +:+ "/master/"
  /\ ready copy = ready this
  /\ getConfig copy = getConfig this.
Proof. cbv zeta. split_and!; reflexivity. Qed.

(** ** From the created file to its removal *)

(** X16.  Take a ready object, a non-empty path that [purifyUrl] leaves
    as it is, and the URL made of the prefix of the object followed by
    the path.  The object owns this URL, [remove] works on that very
    path, and the first request of [remove] for the URL is the first
    request of [create] for the path: the GET to the address of the path
    in the Contents API. *)
Theorem remove_addresses_created_file `{Platform} (w : World)
    (content : QByteArray) (path msg msg' : QString) :
  let this := self w in
  let url := m_imageUrlPrefix this +:+ path in
  ready this = true ->
  path <> "" ->
  purifyUrl path = path ->
  ownsUrl this url = true
  /\ resourcePath this url = path
  /\ head (sentBetween w (create content path msg w).2)
     = Some (lookRequest this path)
  /\ head (sentBetween w (remove url msg' w).2)
     = Some (lookRequest this path).
Proof.
  intros this url Hready Hp Hpure.
  assert (ownsUrl this url = true) as Hown by apply startsWith_app.
  assert (resourcePath this url = path) as Hpath
    by (unfold resourcePath, url; by rewrite mid_app).
  split_and!; [done | done | |].
  - rewrite create_cases. apply isEmpty_false in Hp as Hp'. rewrite Hp'.
    rewrite createResource_cases by done. fold this. rewrite Hready.
    cbn [negb]. split_branches; cbn [snd]; by rewrite sentBetween_after.
  - rewrite remove_cases. fold this. rewrite Hown, Hready, Hpath.
    rewrite andb_false_r. cbn [negb].
    split_branches; cbn [snd]; by rewrite sentBetween_after.
Qed.

Lemma remove_addresses_created_file_witness :
  let P := Mock.platform true [] in
  let w := Mock.world P (Mock.host "t" "u" "r") [] in
  ownsUrl (self w) "https://raw.githubusercontent.com/u/r/master/a/b.png" = true
  /\ head (sentBetween w
             (remove "https://raw.githubusercontent.com/u/r/master/a/b.png" "" w).2)
     = Some (Get (QUrl_of "https://api.github.com/repos/u/r/contents/a/b.png")
                 (standardHeaders "t")).
Proof.
  pose proof (@remove_addresses_created_file
                (Mock.platform true [])
                (Mock.world (Mock.platform true []) (Mock.host "t" "u" "r") [])
                [] "a/b.png" "" "" eq_refl ltac:(discriminate) eq_refl)
    as (Hown & _ & _ & Hremove).
  split; [exact Hown | exact Hremove].
Defined.

(** ** The object that was never configured *)

(** X17.  On an object that was never configured the prefix is empty, so
    [ownsUrl] answers true for every URL; [remove] then passes its
    assertion and fails with the message of the invalid configuration,
    and [create] with a non-empty path fails with the same message;
    neither sends a request. *)
Theorem never_configured_refuses `{Platform} (w : World) (content : QByteArray)
                                 (url path msg : QString) :
  self w = constructed ->
  ownsUrl (self w) url = true
  /\ remove url msg w
     = (Returned (false, "Invalid GitHub image host configuration."), w)
  /\ (path <> "" ->
      create content path msg w
      = (Returned ("", "Invalid GitHub image host configuration."), w)).
Proof.
  intros Hself. split_and!.
  - by rewrite Hself.
  - rewrite remove_cases, Hself. cbn [ownsUrl m_imageUrlPrefix constructed].
    cbn [QStr.startsWith negb]. by rewrite andb_false_r.
  - intros Hp. rewrite create_cases. apply isEmpty_false in Hp as Hp'.
    rewrite Hp'. rewrite createResource_cases by done. by rewrite Hself.
Qed.

Lemma never_configured_refuses_witness :
  let P := Mock.platform true [] in
  let w := Mock.world P constructed [Mock.notFound] in
  remove "ftp://elsewhere/x" "" w
  = (Returned (false, "Invalid GitHub image host configuration."), w).
Proof.
  apply (proj1 (proj2 (@never_configured_refuses
                         (Mock.platform true [])
                         (Mock.world (Mock.platform true []) constructed
                                     [Mock.notFound])
                         [] "ftp://elsewhere/x" "img.png" "" eq_refl))).
Defined.
